(** * The Supabase vector store of mem0 (mem0-ts/src/oss/src/vector_stores/supabase.ts)

    The adapter [SupabaseDB] forwards every operation to a Postgres table
    through the Supabase client: one request per method, the response
    [{data, error, count}] decoded into [VectorStoreResult]s, every failure
    logged on the console and thrown again.

    The development has three layers.

    - [Json], [JsDate]: the values the adapter handles, JSON payloads and the
      clock reading that [new Date().toISOString()] renders.
    - [Backend]: what answers the requests.  The table and the function
      [match_vectors] are those of the SQL migration that the source file
      carries in its comment and in the message of [initialize]; the requests
      (insert, update, delete, select with [limit], [count] and [single], and
      the remote call) behave as the Supabase client and PostgREST document
      them.  The table is the one the adapter is configured for: its key is
      the primary key [id], its two other columns are identified by their
      role (embedding, metadata).  The connection is reliable: a request
      fails only for a reason the database has (a missing table or function,
      a violated constraint, a vector of the wrong dimension, an argument
      that is not of its type, a negative limit, a [single] that does not
      find one row).
    - [SupabaseDB]: the methods of the class, written in a state and error
      monad over the world the adapter runs in (database, clock, console).

    Numbers of a payload are integers: a number a filter holds is sent as
    JavaScript prints the double nearest to it, a number the metadata column
    holds is printed in full.  The components of a vector are rationals,
    taken within the range of the single precision the column keeps them in,
    and the distance operator of pgvector is a parameter of the development. *)

From Stdlib Require Import Ascii QArith Qabs Lqa.
From stdpp Require Import gmap strings list fin_maps pretty sorting.

#[local] Set Warnings "-register-all".
#[local] Open Scope Z_scope.

(** ** JSON values *)

Module Json.

(** A JSON value, as a payload or a filter holds it and as a [jsonb] column
    stores it. *)
Inductive Json : Type :=
  | JNull
  | JBool (b : bool)
  | JNum (n : Z)
  | JStr (s : string)
  | JArr (xs : list Json)
  | JObj (kvs : list (string * Json)).

(** [Record<string, any>]: payloads and the metadata column.  The order of
    the keys is not kept by [jsonb]. *)
Abbreviation JsObject := (gmap string Json).

(** Modelled from the spec: the type [SearchFilters] of [../types], which is
    not part of the source file; the spec gives a filter as a mapping from
    metadata key to an exact-match value. *)
Abbreviation SearchFilters := (gmap string Json).

(** *** Numbers as JavaScript prints them *)

(** The Number value of a literal [a] that is not negative: the double
    nearest to it, the one with the even significand when two are as near;
    [None] is Infinity. *)
Definition to_double (a : Z) : option Z :=
  let bits := Z.log2 a + 1 in
  if bits <=? 53 then Some a
  else
    let e := bits - 53 in
    let q := Z.shiftr a e in
    let r := a mod 2 ^ e in
    let half := 2 ^ (e - 1) in
    let q' := if (half <? r) || ((r =? half) && Z.odd q) then q + 1 else q in
    let x := q' * 2 ^ e in
    if 2 ^ 1024 <=? x then None else Some x.

(** The number of digits of a decimal numeral. *)
Definition decimal_length (x : Z) : Z := Z.of_nat (String.length (pretty x)).

(** The decimal with the fewest significant digits that reads back as the
    double [x], tried from [k] digits on: of the two multiples of
    [10 ^ (length - k)] around [x] the one that is a numeral of [x], the
    nearer one when both are, the one with the even last digit when they are
    as near.  Seventeen digits tell any two doubles apart. *)
Fixpoint shortest_from (fuel : nat) (k : Z) (x : Z) : Z :=
  match fuel with
  | O => x
  | S fuel' =>
      if decimal_length x <=? k then x
      else
        let p := 10 ^ (decimal_length x - k) in
        let lo := x / p * p in
        let hi := lo + p in
        match bool_decide (to_double lo = Some x), bool_decide (to_double hi = Some x) with
        | true, true =>
            if x - lo <? hi - x then lo
            else if hi - x <? x - lo then hi
            else if Z.even (lo / p) then lo else hi
        | true, false => lo
        | false, true => hi
        | false, false => shortest_from fuel' (k + 1) x
        end
  end.

Definition shortest (x : Z) : Z := shortest_from 17 1 x.

(** A numeral without the zeros it ends with. *)
Fixpoint strip_zeros (s : string) : string :=
  match s with
  | EmptyString => EmptyString
  | String c s' =>
      match strip_zeros s' with
      | EmptyString =>
          if bool_decide (c = "0"%char) then EmptyString else String c EmptyString
      | t => String c t
      end
  end.

(** The exponential notation [d.ddde+n]. *)
Definition exponential (v : Z) : string :=
  let e := pretty (decimal_length v - 1) in
  match strip_zeros (pretty v) with
  | EmptyString => "0"
  | String c EmptyString => String c ("e+" +:+ e)
  | String c rest => String c ("." +:+ rest +:+ "e+" +:+ e)
  end.

(** [Number::toString] of the value of an integer literal: the shortest
    decimal that reads back as the double, written in full below [10 ^ 21]
    and in exponential notation from there on. *)
Definition number_to_string (n : Z) : string :=
  match to_double (Z.abs n) with
  | None => if n <? 0 then "-Infinity" else "Infinity"
  | Some x =>
      let v := shortest x in
      (if n <? 0 then "-" else "")
      +:+ (if v <? 10 ^ 21 then pretty v else exponential v)
  end.

(** The text a template literal [`${value}`] gives for a value: an array
    joins the texts of its elements, the empty text for null, with commas. *)
Fixpoint js_to_string (v : Json) : string :=
  match v with
  | JNull => "null"
  | JBool true => "true"
  | JBool false => "false"
  | JNum n => number_to_string n
  | JStr s => s
  | JArr xs =>
      String.concat ","
        (map (fun x => match x with JNull => "" | _ => js_to_string x end) xs)
  | JObj _ => "[object Object]"
  end.

(** *** Values as [jsonb] keeps them *)

Definition dquote : string := String "034"%char EmptyString.
Definition backslash : string := String "092"%char EmptyString.

Definition hex_digit (n : N) : ascii :=
  ascii_of_N (if (n <? 10)%N then 48 + n else 87 + n).

(** A character inside the text form of a [jsonb] string ([escape_json]):
    the quote, the backslash and the characters below the space are escaped,
    every other byte is written as it is. *)
Definition escape_char (c : ascii) : string :=
  let n := N_of_ascii c in
  if (n =? 34)%N then backslash +:+ dquote
  else if (n =? 92)%N then backslash +:+ backslash
  else if (n =? 8)%N then backslash +:+ "b"
  else if (n =? 12)%N then backslash +:+ "f"
  else if (n =? 10)%N then backslash +:+ "n"
  else if (n =? 13)%N then backslash +:+ "r"
  else if (n =? 9)%N then backslash +:+ "t"
  else if (n <? 32)%N
       then backslash +:+ "u00"
            +:+ String (hex_digit (n / 16)) (String (hex_digit (n mod 16)) EmptyString)
  else String c EmptyString.

Fixpoint escape (s : string) : string :=
  match s with
  | EmptyString => EmptyString
  | String c s' => escape_char c +:+ escape s'
  end.

(** The order of bytes on two keys of the same length. *)
Fixpoint bytes_le (a b : string) : bool :=
  match a, b with
  | String x a', String y b' =>
      if (N_of_ascii x <? N_of_ascii y)%N then true
      else if (N_of_ascii y <? N_of_ascii x)%N then false
      else bytes_le a' b'
  | _, _ => true
  end.

(** The order [jsonb] keeps the keys of an object in: the shorter key first,
    keys of one length in the order of their bytes. *)
Definition key_le (a b : string) : bool :=
  if (String.length a <? String.length b)%nat then true
  else if (String.length b <? String.length a)%nat then false
  else bytes_le a b.

(** One more pair for an object in that order; a key the object has already
    takes the new value. *)
Fixpoint put {A : Type} (k : string) (v : A) (l : list (string * A))
  : list (string * A) :=
  match l with
  | [] => [(k, v)]
  | kv :: l' =>
      if bool_decide (k = fst kv) then (k, v) :: l'
      else if key_le k (fst kv) then (k, v) :: l
      else kv :: put k v l'
  end.

(** The pairs of an object as [jsonb] keeps them: ordered by key, and of two
    pairs with the same key the later one. *)
Definition jsonb_object {A : Type} (kvs : list (string * A)) : list (string * A) :=
  foldl (fun acc kv => put (fst kv) (snd kv) acc) [] kvs.

(** The text form of a [jsonb] value ([jsonb_out]). *)
Fixpoint jsonb_text (v : Json) : string :=
  match v with
  | JNull => "null"
  | JBool true => "true"
  | JBool false => "false"
  | JNum n => pretty n
  | JStr s => dquote +:+ escape s +:+ dquote
  | JArr xs => "[" +:+ String.concat ", " (map jsonb_text xs) +:+ "]"
  | JObj kvs =>
      "{" +:+ String.concat ", "
                (map (fun kt => dquote +:+ escape (fst kt) +:+ dquote +:+ ": " +:+ snd kt)
                   (jsonb_object (map (fun kv => (fst kv, jsonb_text (snd kv))) kvs)))
          +:+ "}"
  end.

(** [column ->> key]: the field as text; SQL NULL ([None]) when the key is
    missing or holds JSON null, a string without its quotes. *)
Definition arrow_text (o : JsObject) (key : string) : option string :=
  match o !! key with
  | None => None
  | Some JNull => None
  | Some (JStr s) => Some s
  | Some v => Some (jsonb_text v)
  end.

(** The value an object has under a key: of two pairs with the same key the
    later one. *)
Definition assoc (k : string) (kvs : list (string * Json)) : option Json :=
  snd <$> List.find (fun kv => bool_decide (fst kv = k)) (rev kvs).

(** [a @> b] below the top level: objects contain objects key by key, arrays
    contain arrays element by element, scalars contain equal scalars.  A pair
    of [b] that a later pair of the same key replaces is not looked at. *)
Fixpoint jsonb_contains (a b : Json) {struct b} : bool :=
  match b with
  | JNull => match a with JNull => true | _ => false end
  | JBool y => match a with JBool x => bool_decide (x = y) | _ => false end
  | JNum y => match a with JNum x => bool_decide (x = y) | _ => false end
  | JStr y => match a with JStr x => bool_decide (x = y) | _ => false end
  | JArr ys =>
      match a with
      | JArr xs => forallb (fun y => existsb (fun x => jsonb_contains x y) xs) ys
      | _ => false
      end
  | JObj kys =>
      match a with
      | JObj kxs =>
          (fix pairs (l : list (string * Json)) : bool :=
             match l with
             | [] => true
             | ky :: l' =>
                 (if existsb (fun ky' => bool_decide (fst ky' = fst ky)) l' then true
                  else match assoc (fst ky) kxs with
                       | Some x => jsonb_contains x (snd ky)
                       | None => false
                       end)
                 && pairs l'
             end) kys
      | _ => false
      end
  end.

(** [metadata @> filter] for two objects. *)
Definition contains (o : JsObject) (f : SearchFilters) : bool :=
  forallb (fun ky => match o !! fst ky with
                     | Some x => jsonb_contains x (snd ky)
                     | None => false
                     end) (map_to_list f).

End Json.
Export Json.

(** ** The clock *)

Module JsDate.

(** A time value: milliseconds since 1970-01-01T00:00:00Z, what [new Date()]
    holds. *)
Definition ms_per_day : Z := 86400000.

(** Year, month and day of a day number (days since 1970-01-01) in the
    proleptic Gregorian calendar. *)
Definition civil_from_days (days : Z) : Z * Z * Z :=
  let z := days + 719468 in
  let era := z / 146097 in
  let doe := z - era * 146097 in
  let yoe := (doe - doe / 1460 + doe / 36524 - doe / 146096) / 365 in
  let doy := doe - (365 * yoe + yoe / 4 - yoe / 100) in
  let mp := (5 * doy + 2) / 153 in
  let d := doy - (153 * mp + 2) / 5 + 1 in
  let m := if mp <? 10 then mp + 3 else mp - 9 in
  let y := yoe + era * 400 in
  (if m <=? 2 then y + 1 else y, m, d).

Definition digit (n : Z) : ascii := ascii_of_nat (48 + Z.to_nat (n mod 10)).

(** [n] in decimal on [width] digits, padded with zeros. *)
Fixpoint digits (width : nat) (n : Z) : string :=
  match width with
  | O => EmptyString
  | S w => digits w (n / 10) +:+ String (digit n) EmptyString
  end.

(** [Date.prototype.toISOString]: [YYYY-MM-DDTHH:mm:ss.sssZ], the year on six
    signed digits outside 0..9999. *)
Definition toISOString (t : Z) : string :=
  let '(y, m, d) := civil_from_days (t / ms_per_day) in
  let r := t mod ms_per_day in
  let year :=
    if (0 <=? y) && (y <=? 9999) then digits 4 y
    else (if y <? 0 then "-" else "+") +:+ digits 6 (Z.abs y) in
  year +:+ "-" +:+ digits 2 m +:+ "-" +:+ digits 2 d +:+ "T"
  +:+ digits 2 (r / 3600000) +:+ ":" +:+ digits 2 (r / 60000 mod 60) +:+ ":"
  +:+ digits 2 (r / 1000 mod 60) +:+ "." +:+ digits 3 (r mod 1000) +:+ "Z".

Definition is_digit (c : ascii) : bool :=
  (48 <=? nat_of_ascii c)%nat && (nat_of_ascii c <=? 57)%nat.

(** The shape [-DD-DDTDD:DD:DD.DDDZ] of what follows the year. *)
Definition is_time_tail (l : list ascii) : bool :=
  match l with
  | [s1; m1; m2; s2; d1; d2; t; h1; h2; c1; n1; n2; c2; e1; e2; p; f1; f2; f3; z] =>
      forallb is_digit [m1; m2; d1; d2; h1; h2; n1; n2; e1; e2; f1; f2; f3]
      && bool_decide (s1 = "-"%char) && bool_decide (s2 = "-"%char)
      && bool_decide (t = "T"%char) && bool_decide (c1 = ":"%char)
      && bool_decide (c2 = ":"%char) && bool_decide (p = "."%char)
      && bool_decide (z = "Z"%char)
  | _ => false
  end.

(** The shape of a UTC timestamp of ISO 8601: [YYYY-MM-DDTHH:mm:ss.sssZ], or
    the expanded year [+YYYYYY] or [-YYYYYY] in front. *)
Definition is_iso8601 (s : string) : bool :=
  match String.list_ascii_of_string s with
  | y1 :: y2 :: y3 :: y4 :: rest =>
      if is_digit y1 then forallb is_digit [y2; y3; y4] && is_time_tail rest
      else
        (bool_decide (y1 = "+"%char) || bool_decide (y1 = "-"%char))
        && match rest with
           | y5 :: y6 :: y7 :: rest' =>
               forallb is_digit [y2; y3; y4; y5; y6; y7] && is_time_tail rest'
           | _ => false
           end
  | _ => false
  end.

End JsDate.
Export JsDate.

(** ** The backend: the table and the ranking function of the migration *)

Module Backend.

Abbreviation Embedding := (list Q).

(** The dimension of the column [embedding vector(1536)]. *)
Definition dimension : nat := 1536.

(** What a row holds besides its primary key. *)
Record Stored := { embedding : Embedding; metadata : JsObject }.

(** The database the client is connected to: the table, keyed by [id], when
    the migration created it, and whether [match_vectors] was created. *)
Record Database := {
  table : option (gmap string Stored);
  match_vectors_installed : bool
}.

(** The error object of a response. *)
Inductive BackendError : Type :=
  | UndefinedTable       (* 42P01: the relation does not exist *)
  | UndefinedFunction    (* PGRST202: no function match_vectors *)
  | NotNullViolation     (* 23502: null value in column id *)
  | UniqueViolation      (* 23505: duplicate key *)
  | DimensionMismatch    (* 22000: wrong number of dimensions *)
  | InvalidLimit         (* 2201W, PGRST103: a negative limit *)
  | NotSingleRow         (* PGRST116: single() on zero or several rows *)
  | EmptyVector          (* 22000: vector must have at least 1 dimension *)
  | TooManyDimensions    (* 54000: vector cannot have more than 16000 dimensions *)
  | IntegerOutOfRange.   (* 22003: value out of range for type integer *)

(** [{ data, error, count }]. *)
Record Response (A : Type) := {
  data : option A;
  error : option BackendError;
  count : option nat
}.
Arguments data {A} _.
Arguments error {A} _.
Arguments count {A} _.

Definition failed {A : Type} (e : BackendError) : Response A :=
  {| data := None; error := Some e; count := None |}.

Definition succeeded {A : Type} (d : option A) (c : option nat) : Response A :=
  {| data := d; error := None; count := c |}.

(** The filters the adapter puts on a request.  The client sends
    [.eq(column, value)] as the parameter [column=eq.${value}], and PostgREST
    compares a column written [metadata->>key] as text.  The key is read as
    the name of a field, which is how PostgREST reads a key written with
    letters, digits and underscores that does not start with a digit. *)
Inductive Predicate : Type :=
  | IdEq (v : string)                      (* .eq("id", v) *)
  | IdNeq (v : string)                     (* .neq("id", v) *)
  | MetaTextEq (key : string) (v : string). (* .eq("metadata->>key", v) *)

Definition holds (p : Predicate) (id : string) (r : Stored) : bool :=
  match p with
  | IdEq v => bool_decide (id = v)
  | IdNeq v => negb (bool_decide (id = v))
  | MetaTextEq key v =>
      match arrow_text (metadata r) key with
      | Some t => bool_decide (t = v)
      | None => false
      end
  end.

(** Several filters on one request are a conjunction. *)
Definition holds_all (ps : list Predicate) (id : string) (r : Stored) : bool :=
  forallb (fun p => holds p id r) ps.
Arguments holds_all : simpl never.

(** A row as a request sends it; an [undefined] id is not serialized. *)
Record NewRow := {
  new_id : option string;
  new_embedding : Embedding;
  new_metadata : JsObject
}.

(** A row as [select("*")] returns it (the two timestamp columns of the
    table, which the adapter never reads, are left out). *)
Record VectorData := {
  row_id : string;
  row_embedding : Embedding;
  row_metadata : JsObject
}.

Definition to_row (kv : string * Stored) : VectorData :=
  {| row_id := kv.1; row_embedding := embedding kv.2; row_metadata := metadata kv.2 |}.

Definition has_dimension (v : Embedding) : bool :=
  bool_decide (length v = dimension).
Arguments has_dimension : simpl never.

(** The rows of one [insert], written in order inside one transaction.  The
    column takes a vector of its dimension whose components lie in the range
    of single precision and keeps them in that precision; the components of
    the model are taken in that range and kept as they are. *)
Fixpoint insert_rows (rows : list NewRow) (t : gmap string Stored)
  : BackendError + gmap string Stored :=
  match rows with
  | [] => inr t
  | r :: rows' =>
      match new_id r with
      | None => inl NotNullViolation
      | Some id =>
          if negb (has_dimension (new_embedding r)) then inl DimensionMismatch
          else match t !! id with
               | Some _ => inl UniqueViolation
               | None =>
                   insert_rows rows'
                     (<[id := {| embedding := new_embedding r;
                                 metadata := new_metadata r |}]> t)
               end
      end
  end.

Definition with_table (d : Database) (t : gmap string Stored) : Database :=
  {| table := Some t; match_vectors_installed := match_vectors_installed d |}.

(** [from(table).insert(rows)], with [.select()] when [returning]. *)
Definition pg_insert (returning : bool) (rows : list NewRow) (d : Database)
  : Response (list VectorData) * Database :=
  match table d with
  | None => (failed UndefinedTable, d)
  | Some t =>
      match insert_rows rows t with
      | inl e => (failed e, d)
      | inr t' =>
          (succeeded
             (if returning
              then Some (omap (fun r => id ← new_id r;
                                        Some {| row_id := id;
                                                row_embedding := new_embedding r;
                                                row_metadata := new_metadata r |})
                              rows)
              else None) None,
           with_table d t')
      end
  end.

(** [from(table).update({embedding, metadata})] with its filters.  The new
    embedding is checked against the column type whether or not a row
    matches. *)
Definition pg_update (v : Embedding) (m : JsObject) (ps : list Predicate)
    (d : Database) : Response (list VectorData) * Database :=
  match table d with
  | None => (failed UndefinedTable, d)
  | Some t =>
      if negb (has_dimension v) then (failed DimensionMismatch, d)
      else
        (succeeded None None,
         with_table d
           (map_imap (fun id r =>
                        Some (if holds_all ps id r
                              then {| embedding := v; metadata := m |}
                              else r)) t))
  end.

(** [from(table).delete()] with its filters. *)
Definition pg_delete (ps : list Predicate) (d : Database)
  : Response (list VectorData) * Database :=
  match table d with
  | None => (failed UndefinedTable, d)
  | Some t =>
      (succeeded None None,
       with_table d (filter (fun kv => holds_all ps kv.1 kv.2 = false) t))
  end.

(** [from(table).select("*", {count: "exact"}).limit(n)] with its filters:
    the rows that match, cut at the limit, and the number of rows that match
    when the count is asked for. *)
Definition pg_select (with_count : bool) (ps : list Predicate) (limit : option Z)
    (d : Database) : Response (list VectorData) * Database :=
  match table d with
  | None => (failed UndefinedTable, d)
  | Some t =>
      let rows :=
        map to_row (List.filter (fun kv => holds_all ps kv.1 kv.2) (map_to_list t)) in
      match limit with
      | Some n =>
          if n <? 0 then (failed InvalidLimit, d)
          else (succeeded (Some (take (Z.to_nat n) rows))
                  (if with_count then Some (length rows) else None), d)
      | None =>
          (succeeded (Some rows) (if with_count then Some (length rows) else None), d)
      end
  end.

(** [.single()], which the client documents as: return the data as a single
    object; the query result must be one row, otherwise this returns an error.
    (The variant that answers zero rows with null data is [maybeSingle()].) *)
Definition single (r : Response (list VectorData)) : Response VectorData :=
  match error r with
  | Some e => failed e
  | None =>
      match data r with
      | Some [row] => succeeded (Some row) (count r)
      | _ => failed NotSingleRow
      end
  end.

(** The parameters of the remote call. *)
Record VectorQueryParams := {
  query_embedding : Embedding;
  match_count : Z;
  filter_param : option SearchFilters
}.

(** A row of the table [match_vectors] returns. *)
Record VectorSearchResult := {
  result_id : string;
  similarity : Q;
  result_metadata : JsObject
}.

(** Insertion sort by a rational key, ascending and stable. *)
Fixpoint insert_by {A : Type} (key : A -> Q) (x : A) (l : list A) : list A :=
  match l with
  | [] => [x]
  | y :: l' => if Qle_bool (key x) (key y) then x :: l else y :: insert_by key x l'
  end.

Fixpoint sort_by {A : Type} (key : A -> Q) (l : list A) : list A :=
  match l with
  | [] => []
  | x :: l' => insert_by key x (sort_by key l')
  end.

(** The order [sort_by] puts a list in. *)
Definition by_key {A : Type} (key : A -> Q) : relation A :=
  fun a b => (key a <= key b)%Q.

(** The bounds of the type [int] of [match_count]. *)
Definition int_min : Z := -2147483648.
Definition int_max : Z := 2147483647.

(** The most components a value of the type [vector] has. *)
Definition max_dimensions : Z := 16000.

(** The arguments of the remote call are cast to the types of the signature
    of [match_vectors] before its body runs: [query_embedding] to [vector]
    (the dimension written in the type of a parameter is not enforced, a
    vector without components is not a vector), [match_count] to [int]. *)
Definition match_vectors_arguments (p : VectorQueryParams) : option BackendError :=
  if bool_decide (length (query_embedding p) = 0%nat) then Some EmptyVector
  else if max_dimensions <? Z.of_nat (length (query_embedding p))
       then Some TooManyDimensions
  else if (match_count p <? int_min) || (int_max <? match_count p)
       then Some IntegerOutOfRange
  else None.

(** The where clause of [match_vectors]:
    [case when filter::text = '{}'::text then true else t.metadata @> filter end]. *)
Definition where_clause (f : SearchFilters) (r : Stored) : bool :=
  match map_to_list f with
  | [] => true
  | _ :: _ => contains (metadata r) f
  end.

Section Ranking.

(** The distance operator [<=>] of pgvector. *)
Variable distance : Embedding -> Embedding -> Q.

(** The body of [match_vectors]: the rows that pass the filter, ordered by
    distance to the query, cut at [match_count], each with its similarity
    [1 - distance].  The distance of two vectors of different dimensions is
    an error. *)
Definition match_vectors (p : VectorQueryParams) (t : gmap string Stored)
  : BackendError + list VectorSearchResult :=
  let f := default ∅ (filter_param p) in
  let selected := List.filter (fun kv => where_clause f kv.2) (map_to_list t) in
  if existsb (fun kv => negb (bool_decide (length (embedding kv.2)
                                           = length (query_embedding p)))) selected
  then inl DimensionMismatch
  else if match_count p <? 0 then inl InvalidLimit
  else
    inr (take (Z.to_nat (match_count p))
           (map (fun kv =>
                   {| result_id := kv.1;
                      similarity := 1 - distance (embedding kv.2) (query_embedding p);
                      result_metadata := metadata kv.2 |})
                (sort_by (fun kv => distance (embedding kv.2) (query_embedding p))
                   selected))).

(** [client.rpc("match_vectors", params)]. *)
Definition pg_rpc_match_vectors (p : VectorQueryParams) (d : Database)
  : Response (list VectorSearchResult) * Database :=
  if negb (match_vectors_installed d) then (failed UndefinedFunction, d)
  else
    match match_vectors_arguments p with
    | Some e => (failed e, d)
    | None =>
        match table d with
        | None => (failed UndefinedTable, d)
        | Some t =>
            match match_vectors p t with
            | inl e => (failed e, d)
            | inr rows => (succeeded (Some rows) None, d)
            end
        end
    end.

End Ranking.

End Backend.
Export Backend.

(** ** Promises over a world *)

Module Async.

(** What a method throws. *)
Inductive Error : Type :=
  | BackendFailure (e : BackendError)     (* the error of a response, thrown as it is *)
  | ConfigurationError (message : string) (* the [new Error(...)] of [initialize] *)
  | TypeError.                            (* a method called on [null] *)

Inductive Level : Type := LevelLog | LevelWarn | LevelError.

(** One call of [console.log], [console.warn] or [console.error]. *)
Record ConsoleLine := {
  level : Level;
  text : string;
  detail : option Error
}.

(** The world a method runs in: the database behind the client, the clock
    ([clock w n] is the time value of the n-th [new Date()]), the number of
    clock readings so far, and the console. *)
Record World := {
  db : Database;
  clock : nat -> Z;
  ticks : nat;
  console : list ConsoleLine
}.

(** How a promise settles. *)
Inductive Outcome (A : Type) : Type :=
  | Resolved (a : A)
  | Rejected (e : Error).
Arguments Resolved {A} _.
Arguments Rejected {A} _.

(** An asynchronous computation: it settles and leaves a world. *)
Definition M (A : Type) : Type := World -> Outcome A * World.

#[export] Instance M_ret : MRet M := fun A a w => (Resolved a, w).

#[export] Instance M_bind : MBind M := fun A B f m w =>
  match m w with
  | (Resolved a, w') => f a w'
  | (Rejected e, w') => (Rejected e, w')
  end.

Definition throw {A : Type} (e : Error) : M A := fun w => (Rejected e, w).

(** [try { body } catch (error) { handler }]. *)
Definition try_catch {A : Type} (body : M A) (handler : Error -> M A) : M A :=
  fun w =>
    match body w with
    | (Resolved a, w') => (Resolved a, w')
    | (Rejected e, w') => handler e w'
    end.

Definition console_write (l : Level) (t : string) (d : option Error) : M unit :=
  fun w =>
    (Resolved tt,
     {| db := db w; clock := clock w; ticks := ticks w;
        console := console w ++ [ {| level := l; text := t; detail := d |} ] |}).

(** [await] of a request: the backend answers and the database moves on. *)
Definition await {A : Type} (request : Database -> Response A * Database)
  : M (Response A) :=
  fun w =>
    let (r, d) := request (db w) in
    (Resolved r,
     {| db := d; clock := clock w; ticks := ticks w; console := console w |}).

(** [new Date().toISOString()]. *)
Definition new_Date_toISOString : M string :=
  fun w =>
    (Resolved (toISOString (clock w (ticks w))),
     {| db := db w; clock := clock w; ticks := S (ticks w); console := console w |}).

(** The catch clause every method ends with: log, then throw again. *)
Definition logged {A : Type} (t : string) (body : M A) : M A :=
  try_catch body (fun e => console_write LevelError t (Some e);; throw e).

(** [if (error) throw error]. *)
Definition throw_if_error {A : Type} (r : Response A) : M unit :=
  match error r with
  | Some e => throw (BackendFailure e)
  | None => mret tt
  end.

End Async.
Export Async.

(** ** The adapter *)

Module SupabaseDB.

(** The configuration the constructor reads; the two column names are
    optional. *)
Record SupabaseConfig := {
  supabaseUrl : string;
  supabaseKey : string;
  config_tableName : string;
  config_embeddingColumnName : option string;
  config_metadataColumnName : option string
}.

(** The fields of the class besides the client, which is the connection to
    the database of the world.  The three names say which table and which of
    its columns the requests address; the backend keeps that table and knows
    its columns by their role. *)
Record SupabaseDB := {
  tableName : string;
  embeddingColumnName : string;
  metadataColumnName : string
}.

(** Modelled from the spec: the type [VectorStoreResult] of [../types], which
    is not part of the source file.  The spec gives a result as
    [{id, payload (= metadata), score}]; [get] and [list] build it without a
    score. *)
Record VectorStoreResult := {
  vector_id : string;
  payload : JsObject;
  score : option Q
}.

(** [value || fallback] on an optional string. *)
Definition or_default (value : option string) (fallback : string) : string :=
  match value with
  | Some s => if bool_decide (s = "") then fallback else s
  | None => fallback
  end.

Definition sql_instructions : string :=
"
RUN THE FOLLOWING SQL IN YOUR SUPABASE SQL EDITOR:

-- Enable the vector extension
create extension if not exists vector;

-- Create the memories table
create table if not exists memories (
  id text primary key,
  embedding vector(1536),
  metadata jsonb,
  created_at timestamp with time zone default timezone('utc', now()),
  updated_at timestamp with time zone default timezone('utc', now())
);

-- Create the vector similarity search function
create or replace function match_vectors(
  query_embedding vector(1536),
  match_count int,
  filter jsonb default '{}'::jsonb
)
returns table (
  id text,
  similarity float,
  metadata jsonb
)
language plpgsql
as $$
begin
  return query
  select
    t.id::text,
    1 - (t.embedding <=> query_embedding) as similarity,
    t.metadata
  from memories t
  where case
    when filter::text = '{}'::text then true
    else t.metadata @> filter
  end
  order by t.embedding <=> query_embedding
  limit match_count;
end;
$$;

See the SQL migration instructions in the code comments.".

(** The message of the error [initialize] throws when the test insert fails. *)
Definition setup_message (self : SupabaseDB) : string :=
  "Vector operations failed. Please ensure:
1. The vector extension is enabled
2. The table " +:+ dquote +:+ tableName self +:+ dquote +:+ " exists with correct schema
3. The match_vectors function is created
" +:+ sql_instructions.

(** A message names a prerequisite when it holds the sentence about it. *)
Definition mentions (sentence message : string) : Prop :=
  exists before after : string, message = before +:+ sentence +:+ after.

Definition test_vector : Embedding := replicate 1536 (0 : Q).
Arguments test_vector : simpl never.

(** The record [initialize] inserts and deletes. *)
Definition sentinel : NewRow :=
  {| new_id := Some "test_vector"; new_embedding := test_vector; new_metadata := ∅ |}.

(** [initialize]. *)
Definition initialize (self : SupabaseDB) : M unit :=
  logged "Error during Supabase initialization:"
    (try_catch
       (_ ← await (pg_delete [IdEq "test_vector"]); mret tt)
       (fun _ => console_write LevelWarn "No test vector to delete, safe to ignore." None);;
     r ← await (pg_insert true [sentinel]);
     match error r with
     | Some testError =>
         console_write LevelError "Test insert error:" (Some (BackendFailure testError));;
         throw (ConfigurationError (setup_message self))
     | None =>
         _ ← await (pg_delete [IdEq "test_vector"]);
         console_write LevelLog "Connected to Supabase successfully" None
     end).

(** The constructor: the fields, and the promise of [initialize] with its
    catch clause, which nothing awaits. *)
Definition constructor (config : SupabaseConfig) (w : World)
  : (SupabaseDB * Outcome unit) * World :=
  let self :=
    {| tableName := config_tableName config;
       embeddingColumnName := or_default (config_embeddingColumnName config) "embedding";
       metadataColumnName := or_default (config_metadataColumnName config) "metadata" |} in
  let started :=
    try_catch (initialize self)
      (fun err => console_write LevelError "Failed to initialize Supabase:" (Some err);;
                  throw err) w in
  ((self, started.1), started.2).

(** The callback of [vectors.map] in [insert], from index [idx] on. *)
Fixpoint insert_data (idx : nat) (vectors : list Embedding) (ids : list string)
    (payloads : list JsObject) : M (list NewRow) :=
  match vectors with
  | [] => mret []
  | vector :: rest =>
      created_at ← new_Date_toISOString;
      rows ← insert_data (S idx) rest ids payloads;
      mret ({| new_id := ids !! idx;
               new_embedding := vector;
               new_metadata :=
                 <["created_at" := JStr created_at]> (default ∅ (payloads !! idx)) |}
            :: rows)
  end.

(** [insert]. *)
Definition insert (vectors : list Embedding) (ids : list string)
    (payloads : list JsObject) : M unit :=
  logged "Error during vector insert:"
    (rows ← insert_data 0 vectors ids payloads;
     r ← await (pg_insert false rows);
     throw_if_error r).

(** The result [search] makes of a row of the ranking function. *)
Definition search_result (result : VectorSearchResult) : VectorStoreResult :=
  {| vector_id := result_id result;
     payload := result_metadata result;
     score := Some (similarity result) |}.

(** What [search] does with the response of the remote call. *)
Definition search_response (r : Response (list VectorSearchResult))
  : M (list VectorStoreResult) :=
  throw_if_error r;;
  match data r with
  | None => mret []
  | Some results => mret (map search_result results)
  end.

(** The parameters [search] sends: [limit] is 5 when it is not given, and the
    filter is set only when it is given. *)
Definition rpcQuery (query : Embedding) (limit : option Z) (filters : option SearchFilters)
  : VectorQueryParams :=
  {| query_embedding := query;
     match_count := default 5 limit;
     filter_param := match filters with Some f => Some f | None => None end |}.

Section Search.

Variable distance : Embedding -> Embedding -> Q.

(** [search]. *)
Definition search (query : Embedding) (limit : option Z) (filters : option SearchFilters)
  : M (list VectorStoreResult) :=
  logged "Error during vector search:"
    (r ← await (pg_rpc_match_vectors distance (rpcQuery query limit filters));
     search_response r).

End Search.

(** The result [get] and [list] make of a row of the table. *)
Definition row_result (item : VectorData) : VectorStoreResult :=
  {| vector_id := row_id item; payload := row_metadata item; score := None |}.

(** What [get] does with the response. *)
Definition get_response (r : Response VectorData) : M (option VectorStoreResult) :=
  throw_if_error r;;
  match data r with
  | None => mret None
  | Some row => mret (Some (row_result row))
  end.

(** [get]. *)
Definition get (vectorId : string) : M (option VectorStoreResult) :=
  logged "Error getting vector:"
    (r ← await (fun d => let (r, d') := pg_select false [IdEq vectorId] None d in
                         (single r, d'));
     get_response r).

(** [update]. *)
Definition update (vectorId : string) (vector : Embedding) (payload : JsObject)
  : M unit :=
  logged "Error during vector update:"
    (updated_at ← new_Date_toISOString;
     r ← await (pg_update vector (<["updated_at" := JStr updated_at]> payload)
                  [IdEq vectorId]);
     throw_if_error r).

(** [delete]. *)
Definition delete (vectorId : string) : M unit :=
  logged "Error deleting vector:"
    (r ← await (pg_delete [IdEq vectorId]);
     throw_if_error r).

(** [deleteCol]. *)
Definition deleteCol : M unit :=
  logged "Error deleting collection:"
    (r ← await (pg_delete [IdNeq ""]);
     throw_if_error r).

(** The filters of [list]: one [.eq] per entry of the object. *)
Definition list_predicates (filters : option SearchFilters) : list Predicate :=
  match filters with
  | Some f => map (fun kv => MetaTextEq kv.1 (js_to_string kv.2)) (map_to_list f)
  | None => []
  end.

(** What [list] does with the response; [data.map] on a missing [data] is a
    [TypeError]. *)
Definition list_response (r : Response (list VectorData))
  : M (list VectorStoreResult * nat) :=
  throw_if_error r;;
  match data r with
  | None => throw TypeError
  | Some rows => mret (map row_result rows, default 0%nat (count r))
  end.

(** [list]; [limit] is 100 when it is not given. *)
Definition list (filters : option SearchFilters) (limit : option Z)
  : M (list VectorStoreResult * nat) :=
  logged "Error listing vectors:"
    (r ← await (pg_select true (list_predicates filters) (Some (default 100 limit)));
     list_response r).

End SupabaseDB.

(** ** Worlds to run the methods in *)

Module Sample.

(** A distance to rank with in examples: the sum of the absolute differences
    of the components. *)
Definition manhattan (a b : Embedding) : Q :=
  foldr Qplus 0%Q (zip_with (fun x y => Qabs.Qabs (x - y)) a b).

(** Two vectors of the dimension of the column. *)
Definition ones : Embedding := replicate 1536 (1 : Q).
Definition halves : Embedding := replicate 1536 (1 # 2)%Q.

(** A clock that starts on 2023-11-14T22:13:20.000Z and advances by one
    millisecond at each of its first readings. *)
Definition ticking (n : nat) : Z :=
  match n with
  | 0%nat => 1700000000000
  | 1%nat => 1700000000001
  | 2%nat => 1700000000002
  | _ => 1700000000003
  end.

(** The migration was run and the table is empty. *)
Definition empty_world : World :=
  {| db := {| table := Some ∅; match_vectors_installed := true |};
     clock := ticking; ticks := 0; console := [] |}.

(** The migration was not run. *)
Definition bare_world : World :=
  {| db := {| table := None; match_vectors_installed := false |};
     clock := ticking; ticks := 0; console := [] |}.

Definition config : SupabaseDB.SupabaseConfig :=
  {| SupabaseDB.supabaseUrl := "https://example.supabase.co";
     SupabaseDB.supabaseKey := "key";
     SupabaseDB.config_tableName := "memories";
     SupabaseDB.config_embeddingColumnName := None;
     SupabaseDB.config_metadataColumnName := None |}.

(** The world after [f] ran in [w]. *)
Definition after {A : Type} (f : M A) (w : World) : World := (f w).2.

(** Two records were inserted, one after the other. *)
Definition two_records_world : World :=
  after (SupabaseDB.insert [halves] ["b"] [ {[ "t" := JStr "y" ]} ])
    (after (SupabaseDB.insert [ones] ["a"] [ {[ "t" := JStr "x" ]} ]) empty_world).

(** The three records of the scenario of [list] were inserted in one batch. *)
Definition three_records_world : World :=
  after (SupabaseDB.insert [ones; halves; ones] ["a"; "b"; "c"]
           [ {[ "t" := JStr "x" ]}; {[ "t" := JStr "y" ]}; {[ "t" := JStr "x" ]} ])
    empty_world.

(** The table of a world, empty when there is none. *)
Definition table_of (w : World) : gmap string Stored := default ∅ (table (db w)).

End Sample.

(** ** What the further properties speak of *)

Module Observation.

(** The line the catch clause of a method writes for the error it caught. *)
Definition error_line (label : string) (e : Error) : ConsoleLine :=
  {| level := LevelError; text := label; detail := Some e |}.

(** The row [insert] builds at index [i] of the batch: the id and the payload
    at that index, the payload stamped with the [i]-th reading of the clock
    after the ones already made. *)
Definition insert_row (w : World) (ids : list string) (payloads : list JsObject)
    (i : nat) (vector : Embedding) : NewRow :=
  {| new_id := ids !! i;
     new_embedding := vector;
     new_metadata :=
       <["created_at" := JStr (toISOString (clock w (ticks w + i)%nat))]>
         (default ∅ (payloads !! i)) |}.

(** What a row of a request becomes in the table. *)
Definition stored_row (r : NewRow) : Stored :=
  {| embedding := new_embedding r; metadata := new_metadata r |}.

(** The result [get] and [list] return for a record of the table. *)
Definition stored_result (id : string) (r : Stored) : SupabaseDB.VectorStoreResult :=
  {| SupabaseDB.vector_id := id;
     SupabaseDB.payload := metadata r;
     SupabaseDB.score := None |}.

(** A record passes the filters of [list]: under every key of the filter its
    metadata has a value whose text is the text of the filter value. *)
Definition text_matches (f : SearchFilters) (r : Stored) : Prop :=
  forall (k : string) (v : Json),
    f !! k = Some v -> arrow_text (metadata r) k = Some (js_to_string v).

#[export] Instance text_matches_dec (f : SearchFilters) (r : Stored)
  : Decision (text_matches f r) :=
  @map_Forall_dec _ _ _ _ _ _ _ _ _ _ _ _
    (fun (k : string) (v : Json) => arrow_text (metadata r) k = Some (js_to_string v))
    (fun (k : string) (v : Json) =>
       decide (arrow_text (metadata r) k = Some (js_to_string v)))
    f.

(** A key that PostgREST reads as the name of a field when it stands behind
    [->>]: letters, digits and underscores, the first of them not a digit. *)
Definition is_letter (c : ascii) : bool :=
  let n := nat_of_ascii c in
  ((65 <=? n) && (n <=? 90) || (97 <=? n) && (n <=? 122) || (n =? 95))%nat.

Definition plain_key (k : string) : bool :=
  match k with
  | EmptyString => false
  | String c rest =>
      is_letter c && forallb (fun x => is_letter x || is_digit x) (String.list_ascii_of_string rest)
  end.

(** Every key of a filter is such a key. *)
Definition plain_keys (f : SearchFilters) : Prop :=
  forall (k : string) (v : Json), f !! k = Some v -> plain_key k = true.

(** The result [search] returns for a record of the table. *)
Definition ranked_result (distance : Embedding -> Embedding -> Q) (q : Embedding)
    (id : string) (r : Stored) : SupabaseDB.VectorStoreResult :=
  {| SupabaseDB.vector_id := id;
     SupabaseDB.payload := metadata r;
     SupabaseDB.score := Some (1 - distance (embedding r) q)%Q |}.

(** A computation that writes nothing on the console. *)
Definition quiet {A : Type} (m : M A) : Prop :=
  forall w : World, console (m w).2 = console w.

(** A method logs only what it throws: after it resolved the console is as it
    was in [w], after it rejected the console has one more line, the label of
    the method with the error thrown. *)
Definition logs_only_rejection {A : Type} (label : string) (w : World)
    (r : Outcome A * World) : Prop :=
  match r.1 with
  | Resolved _ => console r.2 = console w
  | Rejected e => console r.2 = console w ++ [error_line label e]
  end.

(** Every embedding the table holds has the dimension of its column. *)
Definition well_dimensioned (d : Database) : Prop :=
  forall (t : gmap string Stored) (id : string) (r : Stored),
    table d = Some t -> t !! id = Some r -> length (embedding r) = dimension.

(** A world as [w] with another database. *)
Definition with_db (w : World) (d : Database) : World :=
  {| db := d; clock := clock w; ticks := ticks w; console := console w |}.

(** The table exists but [match_vectors] was never created; one record is
    stored under the id of the sentinel and one under another id. *)
Definition table_only_world : World :=
  {| db := {| table := Some (<["test_vector" := {| embedding := Sample.ones;
                                                  metadata := {[ "mine" := JBool true ]} |}]>
                              (<["a" := {| embedding := Sample.halves;
                                           metadata := {[ "t" := JStr "x" ]} |}]> ∅));
              match_vectors_installed := false |};
     clock := Sample.ticking; ticks := 0; console := [] |}.

End Observation.
Export Observation.

(** Unfolds the promise combinators of a method body. *)
Ltac run_method :=
  unfold logged, try_catch, throw_if_error, throw, await, new_Date_toISOString,
    console_write, mbind, M_bind, mret, M_ret; cbn beta iota.

(** * Properties *)

(** ** The clock *)

Example toISOString_epoch : toISOString 0 = "1970-01-01T00:00:00.000Z".
Proof. reflexivity. Qed.

Example toISOString_2023 : toISOString 1700000000123 = "2023-11-14T22:13:20.123Z".
Proof. vm_compute. reflexivity. Qed.

Example toISOString_leap_day : toISOString 1709251199999 = "2024-02-29T23:59:59.999Z".
Proof. vm_compute. reflexivity. Qed.

Example toISOString_before_epoch : toISOString (-1) = "1969-12-31T23:59:59.999Z".
Proof. vm_compute. reflexivity. Qed.

Example toISOString_expanded_year :
  toISOString 253402300800000 = "+010000-01-01T00:00:00.000Z".
Proof. vm_compute. reflexivity. Qed.

Lemma is_digit_digit (n : Z) : is_digit (digit n) = true.
Proof.
  unfold is_digit, digit.
  assert (H : 0 <= n mod 10 < 10) by (apply Z.mod_pos_bound; lia).
  rewrite nat_ascii_embedding by lia.
  apply andb_true_iff; split; apply Nat.leb_le; lia.
Qed.

(** Whatever the time value, [toISOString] has the shape of an ISO 8601
    timestamp. *)
Lemma toISOString_is_iso8601 (t : Z) : is_iso8601 (toISOString t) = true.
Proof.
  unfold toISOString.
  destruct (civil_from_days (t / ms_per_day)) as [[y m] d].
  generalize (t mod ms_per_day); intros r.
  assert (Hplus : is_digit "+"%char = false) by reflexivity.
  assert (Hminus : is_digit "-"%char = false) by reflexivity.
  destruct ((0 <=? y) && (y <=? 9999)); [| destruct (y <? 0)];
    cbv -[digit Z.div Z.modulo Z.abs is_digit];
    rewrite ?Hplus, ?Hminus, !is_digit_digit; reflexivity.
Qed.

(** ** The text of values *)

Section Numbers.

Lemma to_double_safe (a : Z) : 0 <= a < 2 ^ 53 -> to_double a = Some a.
Proof.
  intros [Hpos Hlt]. unfold to_double.
  destruct (Z.leb_spec (Z.log2 a + 1) 53) as [|Hbits]; [done |].
  exfalso.
  assert (Ha : 0 < a).
  { destruct (decide (a = 0)) as [->|]; [simpl in Hbits; lia | lia]. }
  pose proof (Z.log2_spec a Ha) as [Hlow _].
  assert (2 ^ 53 <= 2 ^ Z.log2 a) by (apply Z.pow_le_mono_r; lia).
  lia.
Qed.

Lemma to_double_large (a y : Z) : 2 ^ 53 <= a -> to_double a = Some y -> 2 ^ 53 <= y.
Proof.
  intros Ha. unfold to_double.
  assert (Hlog : 53 <= Z.log2 a).
  { change 53 with (Z.log2 (2 ^ 53)) at 1. apply Z.log2_le_mono. exact Ha. }
  destruct (Z.leb_spec (Z.log2 a + 1) 53) as [|_]; [lia |].
  set (e := Z.log2 a + 1 - 53).
  assert (He : 1 <= e) by (unfold e; lia).
  rewrite Z.shiftr_div_pow2 by lia.
  set (q := a / 2 ^ e).
  assert (Hpow : 0 < 2 ^ e) by (apply Z.pow_pos_nonneg; lia).
  assert (Hq : 2 ^ 52 <= q).
  { apply Z.div_le_lower_bound; [exact Hpow |].
    rewrite <- Z.pow_add_r by lia.
    replace (e + 52) with (Z.log2 a) by (unfold e; lia).
    apply Z.log2_spec. lia. }
  assert (H2 : 2 <= 2 ^ e).
  { change 2 with (2 ^ 1) at 1. apply Z.pow_le_mono_r; lia. }
  match goal with |- context [if ?c then q + 1 else q] => set (q' := if c then q + 1 else q) end.
  assert (Hq' : q <= q') by (unfold q'; case_match; lia).
  destruct (2 ^ 1024 <=? q' * 2 ^ e); [discriminate |].
  intros [= <-].
  change (2 ^ 53) with (2 ^ 52 * 2). change (2 ^ 52) with 4503599627370496 in *. nia.
Qed.

Lemma shortest_from_safe (fuel : nat) (k x : Z) :
  0 <= x < 2 ^ 53 -> shortest_from fuel k x = x.
Proof.
  intros Hx. revert k. induction fuel as [|fuel IH]; intros k; [done |].
  cbn [shortest_from].
  destruct (Z.leb_spec (decimal_length x) k) as [|Hk]; [done |].
  set (p := 10 ^ (decimal_length x - k)).
  assert (Hp : 0 < p) by (apply Z.pow_pos_nonneg; lia).
  pose proof (Z.mul_div_le x p Hp) as Hlo.
  pose proof (Z.mod_pos_bound x p Hp) as Hmod.
  pose proof (Z.div_mod x p ltac:(lia)) as Hdiv.
  assert (Hlo0 : 0 <= x / p * p) by (apply Z.mul_nonneg_nonneg; [apply Z.div_pos|]; lia).
  cbn zeta.
  rewrite (to_double_safe (x / p * p)) by lia.
  assert (Hhi : bool_decide (to_double (x / p * p + p) = Some x) = false).
  { apply bool_decide_eq_false_2. intros Hy.
    destruct (Z.lt_ge_cases (x / p * p + p) (2 ^ 53)) as [Hsmall|Hlarge].
    - rewrite to_double_safe in Hy by lia. injection Hy. lia.
    - apply to_double_large in Hy; [| exact Hlarge]. lia. }
  rewrite Hhi.
  destruct (bool_decide (Some (x / p * p) = Some x)) eqn:Hsame.
  - apply bool_decide_eq_true_1 in Hsame. by injection Hsame.
  - apply IH.
Qed.

(** Below [2 ^ 53] in absolute value, where every integer is a double, a
    number is sent as its decimal numeral. *)
Lemma number_to_string_safe (n : Z) :
  Z.abs n < 2 ^ 53 -> number_to_string n = pretty n.
Proof.
  intros Hn. unfold number_to_string.
  rewrite to_double_safe by lia. cbn zeta.
  unfold shortest. rewrite shortest_from_safe by lia.
  assert (Hsmall : (Z.abs n <? 10 ^ 21) = true).
  { apply Z.ltb_lt. change (2 ^ 53) with 9007199254740992 in Hn.
    change (10 ^ 21) with 1000000000000000000000. lia. }
  rewrite Hsmall.
  destruct n as [|p|p]; reflexivity.
Qed.

End Numbers.

(** Beyond, a number is sent as the double nearest to it prints: the shortest
    decimal that reads back as that double, in exponential notation from
    [10 ^ 21] on. *)
Example number_to_string_small :
  (number_to_string 0, number_to_string 42, number_to_string (-7))
  = ("0", "42", "-7").
Proof. vm_compute. reflexivity. Qed.
Example number_to_string_rounds : number_to_string (2 ^ 53 + 1) = "9007199254740992".
Proof. vm_compute. reflexivity. Qed.
Example number_to_string_shortest : number_to_string (2 ^ 64) = "18446744073709552000".
Proof. vm_compute. reflexivity. Qed.
Example number_to_string_exponent :
  (number_to_string (10 ^ 21), number_to_string (- (2 ^ 70)))
  = ("1e+21", "-1.1805916207174113e+21").
Proof. vm_compute. reflexivity. Qed.

(** An array is sent as the texts of its elements, an object as
    [[object Object]]. *)
Example js_to_string_array :
  js_to_string (JArr [JNum 1; JNull; JArr [JStr "a"; JBool true]; JObj []])
  = "1,,a,true,[object Object]".
Proof. vm_compute. reflexivity. Qed.

(** [jsonb] keeps the keys of an object in its own order and the later of two
    pairs with one key, and escapes the quote and the control characters. *)
Example jsonb_text_object :
  jsonb_text (JObj [("bb", JNum 1); ("a", JStr "x"); ("c", JArr [JNull; JBool false]);
                    ("a", JObj [])])
  = "{" +:+ dquote +:+ "a" +:+ dquote +:+ ": {}, "
        +:+ dquote +:+ "c" +:+ dquote +:+ ": [null, false], "
        +:+ dquote +:+ "bb" +:+ dquote +:+ ": 1}".
Proof. vm_compute. reflexivity. Qed.
Example jsonb_text_escapes :
  jsonb_text (JStr (String "010"%char (String "001"%char (String "034"%char "é"))))
  = dquote +:+ backslash +:+ "n" +:+ backslash +:+ "u0001" +:+ backslash +:+ dquote
    +:+ "é" +:+ dquote.
Proof. vm_compute. reflexivity. Qed.
Example jsonb_contains_last_pair :
  jsonb_contains (JObj [("k", JNum 1); ("k", JNum 2)]) (JObj [("k", JNum 2)]) = true
  /\ jsonb_contains (JObj [("k", JNum 2)]) (JObj [("k", JNum 1); ("k", JNum 2)]) = true
  /\ jsonb_contains (JObj [("k", JNum 1); ("k", JNum 2)]) (JObj [("k", JNum 1)]) = false.
Proof. vm_compute. done. Qed.

(** ** The backend *)

Section BackendFacts.

Implicit Types (t : gmap string Stored) (d : Database) (id : string) (r : Stored).

Lemma holds_all_id_eq id k r : holds_all [IdEq id] k r = bool_decide (k = id).
Proof. unfold holds_all; simpl. apply andb_true_r. Qed.

Lemma holds_all_id_neq id k r : holds_all [IdNeq id] k r = negb (bool_decide (k = id)).
Proof. unfold holds_all; simpl. apply andb_true_r. Qed.

Lemma with_table_same d t : table d = Some t -> with_table d t = d.
Proof. destruct d as [t' f]; simpl; intros ->; reflexivity. Qed.

(** A delete that matches no row leaves the table as it is. *)
Lemma delete_rows_none (ps : list Predicate) t :
  (forall k r, t !! k = Some r -> holds_all ps k r = false) ->
  filter (fun kv => holds_all ps kv.1 kv.2 = false) t = t.
Proof.
  intros Hno. apply map_eq; intros k.
  rewrite map_lookup_filter.
  destruct (t !! k) as [r|] eqn:Hk; simpl; [| reflexivity].
  rewrite option_guard_True by (apply (Hno k r Hk)). reflexivity.
Qed.

(** A delete by id removes that key. *)
Lemma delete_rows_id t id :
  filter (fun kv => holds_all [IdEq id] kv.1 kv.2 = false) t = base.delete id t.
Proof.
  apply map_eq; intros k.
  rewrite map_lookup_filter.
  destruct (decide (k = id)) as [->|Hne].
  - rewrite lookup_delete_eq.
    destruct (t !! id) as [r|]; simpl; [| reflexivity].
    rewrite option_guard_False; [reflexivity |].
    simpl. rewrite holds_all_id_eq, bool_decide_eq_true_2; done.
  - rewrite lookup_delete_ne by done.
    destruct (t !! k) as [r|]; simpl; [| reflexivity].
    rewrite option_guard_True; [reflexivity |].
    simpl. rewrite holds_all_id_eq. by apply bool_decide_eq_false_2.
Qed.

(** What [deleteCol] asks for keeps the row whose id is the empty string. *)
Lemma delete_rows_nonempty_id t k :
  filter (fun kv => holds_all [IdNeq ""] kv.1 kv.2 = false) t !! k
  = if decide (k = "") then t !! "" else None.
Proof.
  rewrite map_lookup_filter.
  destruct (decide (k = "")) as [->|Hne].
  - destruct (t !! "") as [r|]; reflexivity.
  - destruct (t !! k) as [r|]; simpl; [| reflexivity].
    rewrite option_guard_False; [reflexivity |].
    simpl. rewrite holds_all_id_neq, bool_decide_eq_false_2; done.
Qed.

(** An update by id rewrites the row of that key, if there is one. *)
Lemma update_rows_id t id (new : Stored) k :
  map_imap (fun k' r => Some (if holds_all [IdEq id] k' r then new else r)) t !! k
  = if decide (k = id) then (fun _ => new) <$> t !! id else t !! k.
Proof.
  rewrite map_lookup_imap.
  destruct (decide (k = id)) as [->|Hne].
  - destruct (t !! id) as [r|]; simpl; [| reflexivity].
    rewrite holds_all_id_eq, bool_decide_eq_true_2; done.
  - destruct (t !! k) as [r|]; simpl; [| reflexivity].
    rewrite holds_all_id_eq, bool_decide_eq_false_2; done.
Qed.

Lemma update_rows_missing t id (new : Stored) :
  t !! id = None ->
  map_imap (fun k' r => Some (if holds_all [IdEq id] k' r then new else r)) t = t.
Proof.
  intros Hid. apply map_eq; intros k. rewrite update_rows_id.
  destruct (decide (k = id)) as [->|]; [| reflexivity].
  rewrite Hid; reflexivity.
Qed.

Lemma update_rows_present t id (new : Stored) r :
  t !! id = Some r ->
  map_imap (fun k' r => Some (if holds_all [IdEq id] k' r then new else r)) t
  = <[id := new]> t.
Proof.
  intros Hid. apply map_eq; intros k. rewrite update_rows_id.
  destruct (decide (k = id)) as [->|].
  - rewrite Hid, lookup_insert_eq; reflexivity.
  - rewrite lookup_insert_ne by done; reflexivity.
Qed.

(** Selecting by id in a list of rows with distinct keys. *)
Lemma select_rows_id_absent (l : list (string * Stored)) id :
  id ∉ l.*1 ->
  List.filter (fun kv => holds_all [IdEq id] kv.1 kv.2) l = [].
Proof.
  induction l as [|[k r] l IH]; simpl; intros Hnot; [reflexivity |].
  rewrite holds_all_id_eq.
  rewrite not_elem_of_cons in Hnot. destruct Hnot as [Hne Hnot].
  rewrite bool_decide_eq_false_2 by done. auto.
Qed.

Lemma select_rows_id_present (l : list (string * Stored)) id r :
  NoDup l.*1 -> (id, r) ∈ l ->
  List.filter (fun kv => holds_all [IdEq id] kv.1 kv.2) l = [(id, r)].
Proof.
  induction l as [|[k r'] l IH]; simpl; intros Hnd Hin.
  - by apply not_elem_of_nil in Hin.
  - apply NoDup_cons in Hnd as [Hk Hnd].
    rewrite holds_all_id_eq.
    apply elem_of_cons in Hin as [Heq|Hin].
    + injection Heq as <- <-.
      rewrite bool_decide_eq_true_2 by done.
      rewrite select_rows_id_absent by done. reflexivity.
    + assert (k <> id).
      { intros ->. apply Hk. apply list_elem_of_fmap. by exists (id, r). }
      rewrite bool_decide_eq_false_2 by done. auto.
Qed.

Lemma select_id_absent t id :
  t !! id = None ->
  List.filter (fun kv => holds_all [IdEq id] kv.1 kv.2) (map_to_list t) = [].
Proof.
  intros Hid. apply select_rows_id_absent.
  intros Hin. apply list_elem_of_fmap in Hin as [[k r] [-> Hin]].
  apply elem_of_map_to_list in Hin. simpl in Hid. congruence.
Qed.

Lemma select_id_present t id r :
  t !! id = Some r ->
  List.filter (fun kv => holds_all [IdEq id] kv.1 kv.2) (map_to_list t) = [(id, r)].
Proof.
  intros Hid. apply select_rows_id_present.
  - apply NoDup_fst_map_to_list.
  - by apply elem_of_map_to_list.
Qed.

End BackendFacts.

(** ** The methods *)

Section Methods.

Implicit Types (w : World) (t : gmap string Stored) (id : string).

(** [delete] of an id the table does not hold. *)
Lemma delete_missing w t id :
  table (db w) = Some t -> t !! id = None ->
  SupabaseDB.delete id w = (Resolved tt, w).
Proof.
  intros Ht Hid. unfold SupabaseDB.delete. run_method.
  unfold pg_delete. rewrite Ht. cbn.
  rewrite delete_rows_none.
  - rewrite with_table_same by done. by destruct w.
  - intros k r Hk. rewrite holds_all_id_eq.
    apply bool_decide_eq_false_2. congruence.
Qed.

(** [update] of an id the table does not hold: only the clock was read. *)
Lemma update_missing w t id (vector : Embedding) (p : JsObject) :
  table (db w) = Some t -> t !! id = None -> length vector = dimension ->
  SupabaseDB.update id vector p w
  = (Resolved tt,
     {| db := db w; clock := clock w; ticks := S (ticks w); console := console w |}).
Proof.
  intros Ht Hid Hdim. unfold SupabaseDB.update. run_method.
  unfold pg_update. cbn. rewrite Ht.
  unfold has_dimension. rewrite bool_decide_eq_true_2 by done. cbn.
  rewrite update_rows_missing by done.
  rewrite with_table_same by done. reflexivity.
Qed.

(** [insert] of one record whose id is free. *)
Lemma insert_one w t id (vector : Embedding) (p : JsObject) :
  table (db w) = Some t -> t !! id = None -> length vector = dimension ->
  SupabaseDB.insert [vector] [id] [p] w
  = (Resolved tt,
     {| db := with_table (db w)
                (<[id := {| embedding := vector;
                            metadata := <["created_at" := JStr (toISOString (clock w (ticks w)))]> p |}]> t);
        clock := clock w; ticks := S (ticks w); console := console w |}).
Proof.
  intros Ht Hid Hdim. unfold SupabaseDB.insert. run_method. cbn.
  run_method. unfold pg_insert. cbn. rewrite Ht. cbn.
  unfold has_dimension. rewrite bool_decide_eq_true_2 by done. cbn.
  rewrite Hid. reflexivity.
Qed.

(** [get] of an id the table holds. *)
Lemma get_present w t id (r : Stored) :
  table (db w) = Some t -> t !! id = Some r ->
  SupabaseDB.get id w
  = (Resolved (Some {| SupabaseDB.vector_id := id;
                       SupabaseDB.payload := metadata r;
                       SupabaseDB.score := None |}), w).
Proof.
  intros Ht Hid. unfold SupabaseDB.get, SupabaseDB.get_response. run_method.
  unfold pg_select. rewrite Ht.
  rewrite (select_id_present t id r Hid). cbn. by destruct w.
Qed.

(** [get] of an id the table does not hold: [single] turns the empty answer
    into an error, which is logged and thrown. *)
Lemma get_missing w t id :
  table (db w) = Some t -> t !! id = None ->
  SupabaseDB.get id w
  = (Rejected (BackendFailure NotSingleRow),
     {| db := db w; clock := clock w; ticks := ticks w;
        console := console w ++ [ {| level := LevelError;
                                     text := "Error getting vector:";
                                     detail := Some (BackendFailure NotSingleRow) |} ] |}).
Proof.
  intros Ht Hid. unfold SupabaseDB.get, SupabaseDB.get_response. run_method.
  unfold pg_select. rewrite Ht.
  rewrite (select_id_absent t id Hid). reflexivity.
Qed.

(** [update] of an id the table holds. *)
Lemma update_present w t id (r : Stored) (vector : Embedding) (p : JsObject) :
  table (db w) = Some t -> t !! id = Some r -> length vector = dimension ->
  SupabaseDB.update id vector p w
  = (Resolved tt,
     {| db := with_table (db w)
                (<[id := {| embedding := vector;
                            metadata := <["updated_at" := JStr (toISOString (clock w (ticks w)))]> p |}]> t);
        clock := clock w; ticks := S (ticks w); console := console w |}).
Proof.
  intros Ht Hid Hdim. unfold SupabaseDB.update. run_method.
  unfold pg_update. cbn. rewrite Ht.
  unfold has_dimension. rewrite bool_decide_eq_true_2 by done. cbn.
  rewrite (update_rows_present t id _ r Hid). reflexivity.
Qed.

End Methods.

(** C7. For an id the collection does not hold, [delete(id)] and
    [update(id, v, p)] (with [v] of the dimension of the column) resolve
    without an error and leave the database, so every stored record, as it
    was; nothing is written on the console. *)
Theorem missing_id_is_noop (w : World) (t : gmap string Stored) (id : string)
    (v : Embedding) (p : JsObject) :
  table (db w) = Some t -> t !! id = None -> length v = dimension ->
  (exists w1, SupabaseDB.delete id w = (Resolved tt, w1)
              /\ db w1 = db w /\ console w1 = console w)
  /\ (exists w2, SupabaseDB.update id v p w = (Resolved tt, w2)
                 /\ db w2 = db w /\ console w2 = console w).
Proof.
  intros Ht Hid Hdim. split.
  - exists w. by rewrite (delete_missing w t id).
  - eexists. by rewrite (update_missing w t id v p).
Qed.

(** C1. For a vector of the dimension of the column, an id the collection does
    not hold yet and any payload, [insert([vector], [id], [payload])] resolves
    and [get(id)] then returns the requested id with the payload plus
    [created_at], the ISO 8601 rendering of the clock at the insert. *)
Theorem insert_then_get (w : World) (t : gmap string Stored) (vector : Embedding)
    (id : string) (p : JsObject) :
  table (db w) = Some t -> t !! id = None -> length vector = dimension ->
  let created_at := toISOString (clock w (ticks w)) in
  is_iso8601 created_at = true
  /\ exists w1,
       SupabaseDB.insert [vector] [id] [p] w = (Resolved tt, w1)
       /\ SupabaseDB.get id w1
          = (Resolved (Some {| SupabaseDB.vector_id := id;
                               SupabaseDB.payload := <["created_at" := JStr created_at]> p;
                               SupabaseDB.score := None |}), w1).
Proof.
  intros Ht Hid Hdim created_at. split; [apply toISOString_is_iso8601 |].
  set (r := {| embedding := vector; metadata := <["created_at" := JStr created_at]> p |}).
  set (w1 := {| db := with_table (db w) (<[id := r]> t); clock := clock w;
                ticks := S (ticks w); console := console w |}).
  exists w1. split; [apply (insert_one w t id vector p Ht Hid Hdim) |].
  apply (get_present w1 (<[id := r]> t) id r); [reflexivity | apply lookup_insert_eq].
Qed.

(** C4. For a record the collection holds, after [update(id, v2, p2)] (with
    [v2] of the dimension of the column) the row holds [v2] and [p2] plus
    [updated_at], [get(id)] returns exactly that payload, and a key that is
    neither in [p2] nor [updated_at] is not in it, whatever the previous
    metadata held. *)
Theorem update_then_get (w : World) (t : gmap string Stored) (id : string)
    (old : Stored) (v2 : Embedding) (p2 : JsObject) :
  table (db w) = Some t -> t !! id = Some old -> length v2 = dimension ->
  let updated_at := toISOString (clock w (ticks w)) in
  let p := <["updated_at" := JStr updated_at]> p2 in
  is_iso8601 updated_at = true
  /\ (forall k, k <> "updated_at" -> p !! k = p2 !! k)
  /\ exists w1,
       SupabaseDB.update id v2 p2 w = (Resolved tt, w1)
       /\ table (db w1) = Some (<[id := {| embedding := v2; metadata := p |}]> t)
       /\ SupabaseDB.get id w1
          = (Resolved (Some {| SupabaseDB.vector_id := id;
                               SupabaseDB.payload := p;
                               SupabaseDB.score := None |}), w1).
Proof.
  intros Ht Hid Hdim updated_at p.
  split; [apply toISOString_is_iso8601 |].
  split; [intros k Hk; subst p; by rewrite lookup_insert_ne |].
  set (r := {| embedding := v2; metadata := p |}).
  set (w1 := {| db := with_table (db w) (<[id := r]> t); clock := clock w;
                ticks := S (ticks w); console := console w |}).
  exists w1. split; [apply (update_present w t id old v2 p2 Ht Hid Hdim) |].
  split; [reflexivity |].
  apply (get_present w1 (<[id := r]> t) id r); [reflexivity | apply lookup_insert_eq].
Qed.

Lemma where_clause_empty (r : Stored) : where_clause ∅ r = true.
Proof. unfold where_clause. rewrite map_to_list_empty. reflexivity. Qed.

(** The three requests that read answer without changing the database. *)
Lemma pg_select_reads (c : bool) (ps : list Predicate) (limit : option Z) (d : Database) :
  (pg_select c ps limit d).2 = d.
Proof.
  unfold pg_select. destruct (table d); [| reflexivity].
  destruct limit as [n|]; [| reflexivity].
  destruct (n <? 0); reflexivity.
Qed.

Lemma pg_rpc_match_vectors_reads (distance : Embedding -> Embedding -> Q)
    (p : VectorQueryParams) (d : Database) :
  (pg_rpc_match_vectors distance p d).2 = d.
Proof.
  unfold pg_rpc_match_vectors.
  destruct (match_vectors_installed d); [| reflexivity]. cbn.
  destruct (match_vectors_arguments p); [reflexivity |].
  destruct (table d) as [t|]; [| reflexivity].
  destruct (match_vectors distance p t); reflexivity.
Qed.

Lemma search_reads (distance : Embedding -> Embedding -> Q) (q : Embedding)
    (limit : option Z) (filters : option SearchFilters) (w : World) :
  db (SupabaseDB.search distance q limit filters w).2 = db w.
Proof.
  unfold SupabaseDB.search, SupabaseDB.search_response. run_method.
  pose proof (pg_rpc_match_vectors_reads distance
                (SupabaseDB.rpcQuery q limit filters) (db w)) as Hd.
  destruct (pg_rpc_match_vectors distance _ (db w)) as [r d]. simpl in Hd. subst d.
  destruct (error r); cbn; [reflexivity |].
  destruct (data r); reflexivity.
Qed.

Lemma get_reads (id : string) (w : World) : db (SupabaseDB.get id w).2 = db w.
Proof.
  unfold SupabaseDB.get, SupabaseDB.get_response. run_method.
  pose proof (pg_select_reads false [IdEq id] None (db w)) as Hd.
  destruct (pg_select false [IdEq id] None (db w)) as [r d]. simpl in Hd. subst d.
  destruct (error (single r)); cbn; [reflexivity |].
  destruct (data (single r)); reflexivity.
Qed.

Lemma list_reads (filters : option SearchFilters) (limit : option Z) (w : World) :
  db (SupabaseDB.list filters limit w).2 = db w.
Proof.
  unfold SupabaseDB.list, SupabaseDB.list_response. run_method.
  pose proof (pg_select_reads true (SupabaseDB.list_predicates filters)
                (Some (default 100 limit)) (db w)) as Hd.
  destruct (pg_select true _ _ (db w)) as [r d]. simpl in Hd. subst d.
  destruct (error r); cbn; [reflexivity |].
  destruct (data r); reflexivity.
Qed.

(** C10. Whatever the world and the arguments, and whether the promise
    resolves or rejects, [search], [get] and [list] leave the database as it
    was: the table, every id, embedding and metadata in it. *)
Theorem reads_leave_the_collection (distance : Embedding -> Embedding -> Q)
    (w : World) (q : Embedding) (limit : option Z) (filters : option SearchFilters)
    (id : string) :
  db (SupabaseDB.search distance q limit filters w).2 = db w
  /\ db (SupabaseDB.get id w).2 = db w
  /\ db (SupabaseDB.list filters limit w).2 = db w.
Proof.
  split; [apply search_reads |]. split; [apply get_reads | apply list_reads].
Qed.

(** ** Ranking *)

Section Sorting.

Context {A : Type} (key : A -> Q).

Lemma Forall_insert_by (P : A -> Prop) (x : A) (l : list A) :
  P x -> Forall P l -> Forall P (insert_by key x l).
Proof.
  intros Hx. induction 1 as [|y l Hy Hl IH]; simpl.
  - by constructor.
  - destruct (Qle_bool (key x) (key y)); repeat constructor; auto.
Qed.

Lemma insert_by_sorted (x : A) (l : list A) :
  StronglySorted (by_key key) l -> StronglySorted (by_key key) (insert_by key x l).
Proof.
  induction 1 as [|y l Hs IH Hy]; simpl.
  - repeat constructor.
  - destruct (Qle_bool (key x) (key y)) eqn:Hle.
    + apply Qle_bool_iff in Hle.
      constructor; [by constructor |].
      constructor; [exact Hle |].
      eapply Forall_impl; [exact Hy |].
      intros z Hz. unfold by_key in *. by apply Qle_trans with (key y).
    + constructor; [exact IH |].
      apply Forall_insert_by; [| exact Hy].
      unfold by_key. apply Qlt_le_weak, Qnot_le_lt.
      intros Hxy. apply Qle_bool_iff in Hxy. congruence.
Qed.

Lemma sort_by_sorted (l : list A) : StronglySorted (by_key key) (sort_by key l).
Proof.
  induction l as [|x l IH]; simpl; [constructor | by apply insert_by_sorted].
Qed.

Lemma length_insert_by (x : A) (l : list A) :
  length (insert_by key x l) = S (length l).
Proof.
  induction l as [|y l IH]; simpl; [reflexivity |].
  destruct (Qle_bool (key x) (key y)); simpl; congruence.
Qed.

Lemma length_sort_by (l : list A) : length (sort_by key l) = length l.
Proof.
  induction l as [|x l IH]; simpl; [reflexivity |].
  rewrite length_insert_by. congruence.
Qed.

(** In a sorted list an earlier element is below a later one. *)
Lemma sorted_lookup (l : list A) (i j : nat) (x y : A) :
  StronglySorted (by_key key) l -> (i <= j)%nat ->
  l !! i = Some x -> l !! j = Some y -> (key x <= key y)%Q.
Proof.
  intros Hs. revert i j. induction Hs as [|z l Hs IH Hz]; intros i j Hij Hi Hj.
  - by rewrite lookup_nil in Hi.
  - destruct i as [|i], j as [|j]; simpl in *.
    + injection Hi as <-. injection Hj as <-. apply Qle_refl.
    + injection Hi as <-.
      rewrite Forall_lookup in Hz. exact (Hz j y Hj).
    + lia.
    + apply (IH i j); [lia | done | done].
Qed.

(** What a cut keeps of a sorted list is below what it leaves out. *)
Lemma sorted_take_drop (l : list A) (n : nat) (x y : A) :
  StronglySorted (by_key key) l -> x ∈ take n l -> y ∈ drop n l ->
  (key x <= key y)%Q.
Proof.
  intros Hs Hx Hy.
  apply elem_of_take in Hx as (i & Hi & Hlt).
  apply list_elem_of_lookup in Hy as (j & Hj). rewrite lookup_drop in Hj.
  apply (sorted_lookup l i (n + j) x y Hs); [lia | done | done].
Qed.

End Sorting.

Section RankingFacts.

Variable distance : Embedding -> Embedding -> Q.


End RankingFacts.

Section SearchFacts.

Variable distance : Embedding -> Embedding -> Q.

(** A remote call that answers without an error ran the ranking function on
    the table. *)
Lemma pg_rpc_match_vectors_succeeded (p : VectorQueryParams) (d : Database) :
  error (pg_rpc_match_vectors distance p d).1 = None ->
  exists (t : gmap string Stored) (rows : list VectorSearchResult),
    table d = Some t
    /\ match_vectors distance p t = inr rows
    /\ (pg_rpc_match_vectors distance p d).1 = succeeded (Some rows) None.
Proof.
  unfold pg_rpc_match_vectors.
  destruct (match_vectors_installed d); cbn; [| discriminate].
  destruct (match_vectors_arguments p); cbn; [discriminate |].
  destruct (table d) as [t|]; cbn; [| discriminate].
  destruct (match_vectors distance p t) as [e|rows] eqn:Hrows; cbn; [discriminate |].
  intros _. by exists t, rows.
Qed.

(** It answers without an error only when the function exists and the
    arguments are of the types of its signature. *)
Lemma pg_rpc_match_vectors_accepted (p : VectorQueryParams) (d : Database) :
  error (pg_rpc_match_vectors distance p d).1 = None ->
  match_vectors_installed d = true /\ match_vectors_arguments p = None.
Proof.
  unfold pg_rpc_match_vectors.
  destruct (match_vectors_installed d); cbn; [| discriminate].
  destruct (match_vectors_arguments p); cbn; [discriminate | done].
Qed.


(** A [search] that resolves decoded a response without an error. *)
Lemma search_resolved (q : Embedding) (limit : option Z) (filters : option SearchFilters)
    (w w' : World) (results : list SupabaseDB.VectorStoreResult) :
  SupabaseDB.search distance q limit filters w = (Resolved results, w') ->
  let r := (pg_rpc_match_vectors distance (SupabaseDB.rpcQuery q limit filters) (db w)).1 in
  error r = None /\ results = map SupabaseDB.search_result (default [] (data r)).
Proof.
  unfold SupabaseDB.search, SupabaseDB.search_response. run_method.
  destruct (pg_rpc_match_vectors distance _ (db w)) as [r d]. cbn.
  destruct (error r); cbn; [discriminate |].
  destruct (data r); cbn; intros [= <- _]; done.
Qed.

End SearchFacts.


(** ** Initialization *)

Section Initialization.

Variable self : SupabaseDB.SupabaseDB.

Lemma test_vector_has_dimension : has_dimension SupabaseDB.test_vector = true.
Proof.
  unfold has_dimension, SupabaseDB.test_vector.
  apply bool_decide_eq_true_2. apply length_replicate.
Qed.

(** The test insert, sent after the first delete, fails exactly when the
    table is missing. *)
Lemma test_insert_error (d : Database) :
  error (pg_insert true [SupabaseDB.sentinel] (pg_delete [IdEq "test_vector"] d).2).1
  = match table d with Some _ => None | None => Some UndefinedTable end.
Proof.
  unfold pg_delete. destruct (table d) as [t|] eqn:Ht; cbn.
  - unfold pg_insert; cbn.
    rewrite test_vector_has_dimension; cbn.
    rewrite delete_rows_id, lookup_delete_eq. reflexivity.
  - unfold pg_insert. rewrite Ht. reflexivity.
Qed.

Lemma initialize_without_table (w : World) :
  table (db w) = None ->
  SupabaseDB.initialize self w
  = (Rejected (ConfigurationError (SupabaseDB.setup_message self)),
     {| db := db w; clock := clock w; ticks := ticks w;
        console :=
          (console w
             ++ [ {| level := LevelError; text := "Test insert error:";
                     detail := Some (BackendFailure UndefinedTable) |} ])
             ++ [ {| level := LevelError; text := "Error during Supabase initialization:";
                     detail := Some (ConfigurationError (SupabaseDB.setup_message self)) |} ]
     |}).
Proof.
  intros Ht. unfold SupabaseDB.initialize. run_method.
  unfold pg_delete. rewrite Ht. cbn.
  unfold pg_insert. rewrite Ht. reflexivity.
Qed.

Lemma initialize_with_table (w : World) (t : gmap string Stored) :
  table (db w) = Some t ->
  SupabaseDB.initialize self w
  = (Resolved tt,
     {| db := with_table (db w) (base.delete "test_vector" t);
        clock := clock w; ticks := ticks w;
        console :=
          console w
            ++ [ {| level := LevelLog; text := "Connected to Supabase successfully";
                    detail := None |} ]
     |}).
Proof.
  intros Ht. unfold SupabaseDB.initialize. run_method.
  unfold pg_delete at 1. rewrite Ht. cbn.
  unfold pg_insert. cbn.
  rewrite test_vector_has_dimension; cbn.
  rewrite delete_rows_id, lookup_delete_eq. cbn.
  unfold pg_delete. cbn.
  rewrite delete_rows_id, delete_insert_eq, delete_delete_eq. reflexivity.
Qed.

Lemma append_assoc (a b c : string) : (a +:+ b) +:+ c = a +:+ (b +:+ c).
Proof.
  induction a as [|x a IH]; [reflexivity |].
  change (String x ((a +:+ b) +:+ c) = String x (a +:+ (b +:+ c))).
  by rewrite IH.
Qed.

Lemma setup_message_names_prerequisites :
  SupabaseDB.mentions "The vector extension is enabled" (SupabaseDB.setup_message self)
  /\ SupabaseDB.mentions
       ("The table " +:+ dquote +:+ SupabaseDB.tableName self +:+ dquote
        +:+ " exists with correct schema")
       (SupabaseDB.setup_message self)
  /\ SupabaseDB.mentions "The match_vectors function is created"
       (SupabaseDB.setup_message self).
Proof.
  unfold SupabaseDB.mentions, SupabaseDB.setup_message.
  split; [| split].
  - exists "Vector operations failed. Please ensure:
1. ", ("
2. The table " +:+ dquote +:+ SupabaseDB.tableName self +:+ dquote +:+ " exists with correct schema
3. The match_vectors function is created
" +:+ SupabaseDB.sql_instructions).
    reflexivity.
  - exists "Vector operations failed. Please ensure:
1. The vector extension is enabled
2. ", ("
3. The match_vectors function is created
" +:+ SupabaseDB.sql_instructions).
    rewrite !append_assoc. reflexivity.
  - exists ("Vector operations failed. Please ensure:
1. The vector extension is enabled
2. The table " +:+ dquote +:+ SupabaseDB.tableName self +:+ dquote +:+ " exists with correct schema
3. "), ("
" +:+ SupabaseDB.sql_instructions).
    rewrite !append_assoc. reflexivity.
Qed.

End Initialization.

(** The promise the constructor starts settles as [initialize] does. *)
Lemma constructor_outcome (config : SupabaseDB.SupabaseConfig) (w : World) :
  let self := (SupabaseDB.constructor config w).1.1 in
  (SupabaseDB.constructor config w).1.2 = (SupabaseDB.initialize self w).1
  /\ db (SupabaseDB.constructor config w).2 = db (SupabaseDB.initialize self w).2.
Proof.
  unfold SupabaseDB.constructor. cbn.
  set (self := {| SupabaseDB.tableName := _ |}).
  unfold try_catch.
  destruct (SupabaseDB.initialize self w) as [[[]|e] w']; done.
Qed.

(** C9. The constructor starts [initialize], which deletes the sentinel if
    there is one and inserts it.  If that insert fails, [initialize] and the
    promise of the constructor reject with a configuration error whose message
    names the vector extension, the table of the adapter and the function
    [match_vectors]; nothing more is sent, and the console holds the two error
    lines and no line of success.  If the insert succeeds, [initialize]
    resolves in a world whose table does not hold the sentinel, with the
    message of a successful connection as the last line of the console. *)
Theorem initialize_probes_with_a_sentinel (config : SupabaseDB.SupabaseConfig)
    (w : World) :
  let self := (SupabaseDB.constructor config w).1.1 in
  let started := (SupabaseDB.constructor config w).1.2 in
  let test :=
    (pg_insert true [SupabaseDB.sentinel] (pg_delete [IdEq "test_vector"] (db w)).2).1 in
  SupabaseDB.tableName self = SupabaseDB.config_tableName config
  /\ (forall testError : BackendError,
        error test = Some testError ->
        (exists w' : World,
           SupabaseDB.initialize self w
           = (Rejected (ConfigurationError (SupabaseDB.setup_message self)), w')
           /\ db w' = (pg_delete [IdEq "test_vector"] (db w)).2
           /\ console w'
              = (console w
                   ++ [ {| level := LevelError; text := "Test insert error:";
                           detail := Some (BackendFailure testError) |} ])
                   ++ [ {| level := LevelError;
                           text := "Error during Supabase initialization:";
                           detail := Some (ConfigurationError
                                             (SupabaseDB.setup_message self)) |} ])
        /\ started = Rejected (ConfigurationError (SupabaseDB.setup_message self))
        /\ SupabaseDB.mentions "The vector extension is enabled"
             (SupabaseDB.setup_message self)
        /\ SupabaseDB.mentions
             ("The table " +:+ dquote +:+ SupabaseDB.config_tableName config +:+ dquote
              +:+ " exists with correct schema")
             (SupabaseDB.setup_message self)
        /\ SupabaseDB.mentions "The match_vectors function is created"
             (SupabaseDB.setup_message self))
  /\ (error test = None ->
        exists (w' : World) (t : gmap string Stored),
          SupabaseDB.initialize self w = (Resolved tt, w')
          /\ started = Resolved tt
          /\ table (db w') = Some t
          /\ t !! "test_vector" = None
          /\ console w'
             = console w ++ [ {| level := LevelLog;
                                 text := "Connected to Supabase successfully";
                                 detail := None |} ]).
Proof.
  intros self started test.
  pose proof (constructor_outcome config w) as [Hstarted _].
  fold self started in Hstarted.
  assert (Hname : SupabaseDB.tableName self = SupabaseDB.config_tableName config).
  { reflexivity. }
  split; [exact Hname |].
  unfold test. rewrite test_insert_error.
  destruct (table (db w)) as [t|] eqn:Ht; split.
  - discriminate.
  - intros _.
    pose proof (initialize_with_table self w t Ht) as Hinit.
    eexists _, (base.delete "test_vector" t).
    split; [exact Hinit |].
    split; [by rewrite Hstarted, Hinit |].
    split; [reflexivity |].
    split; [apply lookup_delete_eq | reflexivity].
  - intros testError [= <-].
    pose proof (initialize_without_table self w Ht) as Hinit.
    split.
    { eexists. split; [exact Hinit |]. split; [| reflexivity].
      unfold pg_delete. by rewrite Ht. }
    split; [by rewrite Hstarted, Hinit |].
    rewrite <- Hname. apply setup_message_names_prerequisites.
  - discriminate.
Qed.

(** ** Absent records *)

(** C2. On a table that holds no record with the id, [get] does not return
    null: the request ends with [single()], the backend answers the empty
    selection with an error, and [get] logs it and rejects. *)
Theorem get_missing_id_rejects :
  SupabaseDB.get "missing" Sample.empty_world
  = (Rejected (BackendFailure NotSingleRow),
     {| db := db Sample.empty_world; clock := Sample.ticking; ticks := 0;
        console := [ {| level := LevelError; text := "Error getting vector:";
                        detail := Some (BackendFailure NotSingleRow) |} ] |}).
Proof. apply (get_missing Sample.empty_world ∅ "missing"); reflexivity. Qed.

(** The null branch of [get] is taken only for a response with neither data
    nor error, which [single()] never gives. *)
Lemma get_response_null (r : Response VectorData) (w : World) :
  error r = None -> data r = None ->
  SupabaseDB.get_response r w = (Resolved None, w).
Proof.
  intros He Hd. unfold SupabaseDB.get_response. run_method.
  rewrite He, Hd. reflexivity.
Qed.

Lemma single_never_null (r : Response (list VectorData)) :
  error (single r) = None -> exists row : VectorData, data (single r) = Some row.
Proof.
  unfold single. destruct (error r); [discriminate |].
  destruct (data r) as [[|row [|]]|]; try discriminate.
  intros _. by exists row.
Qed.

(** ** Listing and clearing *)

(** The rows a [list] selects. *)
Lemma list_resolves (w : World) (t : gmap string Stored) (filters : option SearchFilters)
    (limit : option Z) :
  table (db w) = Some t -> 0 <= default 100 limit ->
  let rows :=
    map to_row
      (List.filter (fun kv => holds_all (SupabaseDB.list_predicates filters) kv.1 kv.2)
         (map_to_list t)) in
  SupabaseDB.list filters limit w
  = (Resolved (map SupabaseDB.row_result (take (Z.to_nat (default 100 limit)) rows),
               length rows), w).
Proof.
  intros Ht Hlimit rows. unfold SupabaseDB.list, SupabaseDB.list_response. run_method.
  unfold pg_select. rewrite Ht.
  apply Z.ltb_ge in Hlimit. rewrite Hlimit. cbn. by destruct w.
Qed.

(** What [deleteCol] leaves in the table: the row whose id is the empty
    string, if there was one. *)
Lemma deleteCol_resolves (w : World) (t : gmap string Stored) :
  table (db w) = Some t ->
  exists t' : gmap string Stored,
    SupabaseDB.deleteCol w
    = (Resolved tt,
       {| db := with_table (db w) t'; clock := clock w; ticks := ticks w;
          console := console w |})
    /\ forall k : string, t' !! k = if decide (k = "") then t !! "" else None.
Proof.
  intros Ht. eexists. split.
  - unfold SupabaseDB.deleteCol. run_method. unfold pg_delete. rewrite Ht. reflexivity.
  - apply delete_rows_nonempty_id.
Qed.

(** When no record has the empty string as its id, [deleteCol] empties the
    table and [list] then returns no record and the count 0. *)
Lemma deleteCol_then_list (w : World) (t : gmap string Stored) (limit : option Z) :
  table (db w) = Some t -> t !! "" = None -> 0 <= default 100 limit ->
  exists w1 : World,
    SupabaseDB.deleteCol w = (Resolved tt, w1)
    /\ table (db w1) = Some ∅
    /\ SupabaseDB.list None limit w1 = (Resolved ([], 0%nat), w1).
Proof.
  intros Ht Hempty Hlimit.
  destruct (deleteCol_resolves w t Ht) as (t' & Hdel & Ht').
  assert (t' = ∅) as ->.
  { apply map_eq; intros k. rewrite Ht', lookup_empty. by case_decide. }
  eexists. split; [exact Hdel |]. split; [reflexivity |].
  rewrite (list_resolves _ ∅ None limit); [| reflexivity | exact Hlimit].
  rewrite map_to_list_empty. cbn. by rewrite take_nil.
Qed.

(** C3. A record stored under the empty string survives [deleteCol]: the
    request deletes the rows whose id differs from the empty string, and
    [list] still returns that record, with the count 1. *)
Theorem deleteCol_keeps_the_empty_id :
  let w1 := Sample.after (SupabaseDB.insert [Sample.ones] [""] [∅]) Sample.empty_world in
  let w2 := Sample.after SupabaseDB.deleteCol w1 in
  (SupabaseDB.insert [Sample.ones] [""] [∅] Sample.empty_world).1 = Resolved tt
  /\ (SupabaseDB.deleteCol w1).1 = Resolved tt
  /\ (SupabaseDB.list None (Some 100) w2).1
     = Resolved ([ {| SupabaseDB.vector_id := "";
                      SupabaseDB.payload := {[ "created_at" := JStr "2023-11-14T22:13:20.000Z" ]};
                      SupabaseDB.score := None |} ], 1%nat).
Proof. vm_compute. done. Qed.

(** A [list] that resolves selected rows of the table. *)
Lemma list_resolved (w w' : World) (filters : option SearchFilters) (limit : option Z)
    (results : list SupabaseDB.VectorStoreResult) (total : nat) :
  SupabaseDB.list filters limit w = (Resolved (results, total), w') ->
  exists t : gmap string Stored,
    table (db w) = Some t /\ 0 <= default 100 limit
    /\ SupabaseDB.list filters limit w
       = (Resolved
            (map SupabaseDB.row_result
               (take (Z.to_nat (default 100 limit))
                  (map to_row
                     (List.filter
                        (fun kv => holds_all (SupabaseDB.list_predicates filters) kv.1 kv.2)
                        (map_to_list t)))),
             length
               (map to_row
                  (List.filter
                     (fun kv => holds_all (SupabaseDB.list_predicates filters) kv.1 kv.2)
                     (map_to_list t)))), w).
Proof.
  intros Hlist.
  destruct (table (db w)) as [t|] eqn:Ht.
  - destruct (Z.ltb_spec (default 100 limit) 0) as [Hneg|Hpos].
    + exfalso. revert Hlist.
      unfold SupabaseDB.list, SupabaseDB.list_response. run_method.
      unfold pg_select. rewrite Ht.
      apply Z.ltb_lt in Hneg. rewrite Hneg. discriminate.
    + exists t. split; [reflexivity |]. split; [exact Hpos |].
      by apply list_resolves.
  - exfalso. revert Hlist.
    unfold SupabaseDB.list, SupabaseDB.list_response. run_method.
    unfold pg_select. rewrite Ht. discriminate.
Qed.

(** A row passes the filters of [list] only if, for each entry of the filter,
    its metadata has under that key a value whose text is the text of the
    filter value. *)
Lemma list_predicates_hold (filters : JsObject) (id : string) (r : Stored)
    (k : string) (v : Json) :
  holds_all (SupabaseDB.list_predicates (Some filters)) id r = true ->
  filters !! k = Some v ->
  arrow_text (metadata r) k = Some (js_to_string v).
Proof.
  unfold holds_all. rewrite forallb_forall. intros Hall Hk.
  assert (Hin : In (MetaTextEq k (js_to_string v))
                  (SupabaseDB.list_predicates (Some filters))).
  { unfold SupabaseDB.list_predicates.
    apply (in_map (fun kv : string * Json => MetaTextEq kv.1 (js_to_string kv.2))
             (map_to_list filters) (k, v)).
    apply list_elem_of_In. by apply elem_of_map_to_list. }
  specialize (Hall _ Hin). simpl in Hall.
  destruct (arrow_text (metadata r) k) as [s|]; [| discriminate].
  apply bool_decide_eq_true_1 in Hall. by subst s.
Qed.

(** The scenario: three records go into an empty table and [list] is asked
    for the ones tagged x.  The values are strings, which are sent and
    compared as they are. *)
Lemma list_scenario (w : World) (v1 v2 v3 : Embedding) :
  table (db w) = Some ∅ ->
  length v1 = dimension -> length v2 = dimension -> length v3 = dimension ->
  let x : JsObject := {[ "t" := JStr "x" ]} in
  let y : JsObject := {[ "t" := JStr "y" ]} in
  exists (w1 : World) (results : list SupabaseDB.VectorStoreResult),
    SupabaseDB.insert [v1; v2; v3] ["a"; "b"; "c"] [x; y; x] w = (Resolved tt, w1)
    /\ SupabaseDB.list (Some x) None w1 = (Resolved (results, 2%nat), w1)
    /\ results ≡ₚ
       [ {| SupabaseDB.vector_id := "a";
            SupabaseDB.payload :=
              <["created_at" := JStr (toISOString (clock w (ticks w)))]> x;
            SupabaseDB.score := None |};
         {| SupabaseDB.vector_id := "c";
            SupabaseDB.payload :=
              <["created_at" := JStr (toISOString (clock w (S (S (ticks w)))))]> x;
            SupabaseDB.score := None |} ].
Proof.
  intros Ht H1 H2 H3 x y.
  assert (Hinsert :
    SupabaseDB.insert [v1; v2; v3] ["a"; "b"; "c"] [x; y; x] w
    = (Resolved tt,
       {| db := with_table (db w)
                  (<["c" := {| embedding := v3;
                               metadata := <["created_at" :=
                                 JStr (toISOString (clock w (S (S (ticks w)))))]> x |}]>
                     (<["b" := {| embedding := v2;
                                  metadata := <["created_at" :=
                                    JStr (toISOString (clock w (S (ticks w))))]> y |}]>
                        (<["a" := {| embedding := v1;
                                     metadata := <["created_at" :=
                                       JStr (toISOString (clock w (ticks w)))]> x |}]> ∅)));
          clock := clock w; ticks := S (S (S (ticks w))); console := console w |})).
  { unfold SupabaseDB.insert. run_method. cbn [SupabaseDB.insert_data].
    run_method. cbn [lookup list_lookup default from_option].
    unfold pg_insert. cbn [db]. rewrite Ht. cbn [insert_rows new_id new_embedding new_metadata].
    unfold has_dimension. rewrite !bool_decide_eq_true_2 by done. cbn [negb].
    rewrite lookup_empty.
    rewrite lookup_insert_ne by done. rewrite lookup_empty.
    rewrite !lookup_insert_ne by done. rewrite lookup_empty.
    reflexivity. }
  revert Hinsert.
  generalize (toISOString (clock w (ticks w))) as s0.
  generalize (toISOString (clock w (S (ticks w)))) as s1.
  generalize (toISOString (clock w (S (S (ticks w))))) as s2.
  intros s2 s1 s0 Hinsert.
  match type of Hinsert with _ = (_, ?W) => set (w1 := W) in * end.
  match eval unfold w1 in w1 with
  | {| db := with_table _ ?T |} =>
      pose proof (list_resolves w1 T (Some x) None eq_refl ltac:(done)) as Hlist
  end.
  cbn zeta in Hlist.
  eexists w1, _. split; [exact Hinsert |].
  rewrite Hlist. split.
  - vm_compute. reflexivity.
  - vm_compute. apply perm_swap.
Qed.

(** C6. [list] compares texts where [search] compares values.  [list] sends
    every entry of the filter as [.eq("metadata->>key", value)], which
    compares the text of the field with the text of the value, and [search]
    hands the same filter to the containment [metadata @> filter] of the
    ranking function.  So [list({a: 1, b: 2})] returns a record whose
    metadata holds the strings "1" and "2" under [a] and [b]: the number 1
    under [a] is lacking, the metadata does not contain the filter, and
    [search] with the same filter leaves the record out, which it returns
    when no filter is given. *)
Theorem list_compares_texts_where_search_compares_values :
  let stored : JsObject := {[ "a" := JStr "1"; "b" := JStr "2" ]} in
  let filters : JsObject := {[ "a" := JNum 1; "b" := JNum 2 ]} in
  let w1 := Sample.after (SupabaseDB.insert [Sample.ones] ["r"] [stored]) Sample.empty_world in
  let returned : JsObject := <["created_at" := JStr "2023-11-14T22:13:20.000Z"]> stored in
  (SupabaseDB.list (Some filters) None w1).1
  = Resolved ([ {| SupabaseDB.vector_id := "r";
                   SupabaseDB.payload := returned;
                   SupabaseDB.score := None |} ], 1%nat)
  /\ returned !! "a" = Some (JStr "1")
  /\ returned !! "a" <> Some (JNum 1)
  /\ contains returned filters = false
  /\ (SupabaseDB.search Sample.manhattan Sample.ones None (Some filters) w1).1
     = Resolved []
  /\ (SupabaseDB.search Sample.manhattan Sample.ones None None w1).1
     = Resolved [ ranked_result Sample.manhattan Sample.ones "r"
                    {| embedding := Sample.ones; metadata := returned |} ].
Proof. vm_compute. done. Qed.

(** ** The theorems at work on the sample worlds *)

Lemma insert_then_get_witness :
  table (db Sample.empty_world) = Some ∅
  /\ (∅ : gmap string Stored) !! "a" = None
  /\ length Sample.ones = dimension
  /\ is_iso8601 "2023-11-14T22:13:20.000Z" = true
  /\ exists w1 : World,
       SupabaseDB.insert [Sample.ones] ["a"] [ {[ "t" := JStr "x" ]} ] Sample.empty_world
       = (Resolved tt, w1)
       /\ SupabaseDB.get "a" w1
          = (Resolved
               (Some {| SupabaseDB.vector_id := "a";
                        SupabaseDB.payload :=
                          <["created_at" := JStr "2023-11-14T22:13:20.000Z"]>
                            {[ "t" := JStr "x" ]};
                        SupabaseDB.score := None |}), w1).
Proof.
  split; [reflexivity |]. split; [reflexivity |].
  split; [apply length_replicate |].
  apply (insert_then_get Sample.empty_world ∅ Sample.ones "a" {[ "t" := JStr "x" ]});
    [reflexivity | reflexivity | apply length_replicate].
Defined.

Lemma update_then_get_witness :
  let w := Sample.two_records_world in
  let p2 : JsObject := {[ "u" := JNum 7 ]} in
  let p : JsObject := <["updated_at" := JStr "2023-11-14T22:13:20.002Z"]> p2 in
  table (db w) = Some (Sample.table_of w)
  /\ Sample.table_of w !! "a"
     = Some {| embedding := Sample.ones;
               metadata := <["created_at" := JStr "2023-11-14T22:13:20.000Z"]>
                             {[ "t" := JStr "x" ]} |}
  /\ length Sample.halves = dimension
  /\ p !! "t" = None
  /\ exists w1 : World,
       SupabaseDB.update "a" Sample.halves p2 w = (Resolved tt, w1)
       /\ SupabaseDB.get "a" w1
          = (Resolved (Some {| SupabaseDB.vector_id := "a";
                               SupabaseDB.payload := p;
                               SupabaseDB.score := None |}), w1).
Proof.
  intros w p2 p.
  assert (Ht : table (db w) = Some (Sample.table_of w)) by (vm_compute; reflexivity).
  assert (Ha : Sample.table_of w !! "a"
               = Some {| embedding := Sample.ones;
                         metadata := <["created_at" := JStr "2023-11-14T22:13:20.000Z"]>
                                       {[ "t" := JStr "x" ]} |})
    by (vm_compute; reflexivity).
  assert (Hdim : length Sample.halves = dimension) by apply length_replicate.
  destruct (update_then_get w (Sample.table_of w) "a" _ Sample.halves p2 Ht Ha Hdim)
    as (_ & Hkeys & w1 & Hupdate & _ & Hget).
  split; [exact Ht |]. split; [exact Ha |]. split; [exact Hdim |].
  split; [exact (Hkeys "t" ltac:(done)) |].
  exists w1. split; [exact Hupdate | exact Hget].
Defined.

Lemma missing_id_is_noop_witness :
  table (db Sample.empty_world) = Some ∅
  /\ (∅ : gmap string Stored) !! "nonexistent" = None
  /\ length Sample.ones = dimension
  /\ (exists w1 : World,
        SupabaseDB.delete "nonexistent" Sample.empty_world = (Resolved tt, w1)
        /\ db w1 = db Sample.empty_world /\ console w1 = console Sample.empty_world)
  /\ (exists w2 : World,
        SupabaseDB.update "nonexistent" Sample.ones ∅ Sample.empty_world = (Resolved tt, w2)
        /\ db w2 = db Sample.empty_world /\ console w2 = console Sample.empty_world).
Proof.
  split; [reflexivity |]. split; [reflexivity |].
  split; [apply length_replicate |].
  apply (missing_id_is_noop Sample.empty_world ∅ "nonexistent" Sample.ones ∅);
    [reflexivity | reflexivity | apply length_replicate].
Defined.


Lemma initialize_probes_with_a_sentinel_witness :
  (let test :=
     (pg_insert true [SupabaseDB.sentinel]
        (pg_delete [IdEq "test_vector"] (db Sample.bare_world)).2).1 in
   error test = Some UndefinedTable
   /\ (SupabaseDB.constructor Sample.config Sample.bare_world).1.2
      = Rejected (ConfigurationError
                    (SupabaseDB.setup_message
                       (SupabaseDB.constructor Sample.config Sample.bare_world).1.1)))
  /\ (let test :=
        (pg_insert true [SupabaseDB.sentinel]
           (pg_delete [IdEq "test_vector"] (db Sample.two_records_world)).2).1 in
      error test = None
      /\ (SupabaseDB.constructor Sample.config Sample.two_records_world).1.2 = Resolved tt).
Proof.
  split.
  - intros test.
    assert (Htest : error test = Some UndefinedTable) by reflexivity.
    split; [exact Htest |].
    destruct (initialize_probes_with_a_sentinel Sample.config Sample.bare_world)
      as (_ & Hfails & _).
    destruct (Hfails UndefinedTable Htest) as (_ & Hstarted & _).
    exact Hstarted.
  - intros test.
    assert (Htest : error test = None).
    { unfold test. rewrite test_insert_error. reflexivity. }
    split; [exact Htest |].
    destruct (initialize_probes_with_a_sentinel Sample.config Sample.two_records_world)
      as (_ & _ & Hsucceeds).
    destruct (Hsucceeds Htest) as (w' & t & _ & Hstarted & _).
    exact Hstarted.
Defined.

(** * Further properties of the methods *)

(** ** Batches *)

Section Batches.

Implicit Types (w : World) (t : gmap string Stored) (rows : list NewRow).

(** The rows [insert] builds: one per vector, in order, each with one reading
    of the clock. *)
Lemma insert_data_rows (idx : nat) (vectors : list Embedding) (ids : list string)
    (payloads : list JsObject) w :
  SupabaseDB.insert_data idx vectors ids payloads w
  = (Resolved
       (imap (fun i v =>
                {| new_id := ids !! (idx + i)%nat;
                   new_embedding := v;
                   new_metadata :=
                     <["created_at" := JStr (toISOString (clock w (ticks w + i)%nat))]>
                       (default ∅ (payloads !! (idx + i)%nat)) |}) vectors),
     {| db := db w; clock := clock w; ticks := (ticks w + length vectors)%nat;
        console := console w |}).
Proof.
  revert idx w. induction vectors as [|v vectors IH]; intros idx w.
  - simpl. unfold mret, M_ret. rewrite Nat.add_0_r. by destruct w.
  - cbn [SupabaseDB.insert_data]. run_method.
    rewrite IH. cbn [ticks clock db console length].
    rewrite imap_cons. rewrite !Nat.add_0_r.
    f_equal; [| f_equal; lia].
    f_equal. f_equal.
    apply imap_ext. intros i x _. unfold compose. cbn [ticks clock db console].
    replace (S idx + i)%nat with (idx + S i)%nat by lia.
    replace (S (ticks w) + i)%nat with (ticks w + S i)%nat by lia.
    reflexivity.
Qed.

Lemma insert_data_rows_0 (vectors : list Embedding) (ids : list string)
    (payloads : list JsObject) w :
  SupabaseDB.insert_data 0 vectors ids payloads w
  = (Resolved (imap (insert_row w ids payloads) vectors),
     {| db := db w; clock := clock w; ticks := (ticks w + length vectors)%nat;
        console := console w |}).
Proof. apply insert_data_rows. Qed.

(** What a batch must satisfy for the backend to write it, and what the table
    holds afterwards. *)
Lemma insert_rows_written rows t t' :
  insert_rows rows t = inr t' ->
  Forall (fun r => is_Some (new_id r) /\ length (new_embedding r) = dimension) rows
  /\ NoDup (omap new_id rows)
  /\ (forall id, id ∈ omap new_id rows -> t !! id = None)
  /\ (forall id, id ∉ omap new_id rows -> t' !! id = t !! id)
  /\ (forall r id, r ∈ rows -> new_id r = Some id -> t' !! id = Some (stored_row r)).
Proof.
  revert t. induction rows as [|r rows IH]; intros t; simpl.
  - intros [= <-]. split; [constructor |]. split; [constructor |].
    split; [intros id Hid; by apply not_elem_of_nil in Hid |].
    split; [done |]. intros r id Hr. by apply not_elem_of_nil in Hr.
  - destruct (new_id r) as [id|] eqn:Hid; [| discriminate].
    unfold has_dimension.
    destruct (bool_decide (length (new_embedding r) = dimension)) eqn:Hdim;
      [| discriminate]. cbn [negb].
    apply bool_decide_eq_true_1 in Hdim.
    destruct (t !! id) eqn:Hfresh; [discriminate |].
    intros Hrest.
    destruct (IH _ Hrest) as (Hall & Hnodup & Hnew & Hother & Hstored).
    assert (Hnotin : id ∉ omap new_id rows).
    { intros Hin. specialize (Hnew id Hin). by rewrite lookup_insert_eq in Hnew. }
    split; [constructor; [split; [rewrite Hid; by eexists | done] | done] |].
    split; [by constructor |].
    split.
    { intros id' [->|Hin]%elem_of_cons; [done |].
      specialize (Hnew id' Hin).
      destruct (decide (id = id')) as [->|Hne]; [done |].
      by rewrite lookup_insert_ne in Hnew. }
    split.
    { intros id' Hnot. apply not_elem_of_cons in Hnot as [Hne Hnot].
      rewrite (Hother id' Hnot). by rewrite lookup_insert_ne. }
    intros r' id' [->|Hin]%elem_of_cons Hid'.
    + assert (id' = id) as -> by congruence.
      rewrite (Hother id Hnotin). by rewrite lookup_insert_eq.
    + by apply Hstored.
Qed.

(** A batch that satisfies it is written. *)
Lemma insert_rows_writes rows t :
  Forall (fun r => is_Some (new_id r) /\ length (new_embedding r) = dimension) rows ->
  NoDup (omap new_id rows) ->
  (forall id, id ∈ omap new_id rows -> t !! id = None) ->
  exists t', insert_rows rows t = inr t'.
Proof.
  revert t. induction rows as [|r rows IH]; intros t Hall Hnodup Hfresh; simpl.
  - by eexists.
  - apply Forall_cons in Hall as [[[id Hid] Hdim] Hall].
    simpl in Hnodup, Hfresh. rewrite Hid in Hnodup, Hfresh. simpl in Hnodup, Hfresh.
    apply NoDup_cons in Hnodup as [Hnotin Hnodup].
    rewrite Hid. unfold has_dimension. rewrite bool_decide_eq_true_2 by done. cbn [negb].
    rewrite (Hfresh id) by apply list_elem_of_here.
    apply IH; [done | done |].
    intros id' Hin. rewrite lookup_insert_ne.
    + apply Hfresh. by apply list_elem_of_further.
    + intros ->. done.
Qed.

(** The ids of the rows of a batch are the first ids, one per vector. *)
Lemma insert_row_ids (f : nat -> Embedding -> NewRow) (idx : nat)
    (vectors : list Embedding) (ids : list string) :
  (forall i v, new_id (f i v) = ids !! (idx + i)%nat) ->
  (idx + length vectors <= length ids)%nat ->
  omap new_id (imap f vectors) = take (length vectors) (drop idx ids).
Proof.
  revert f idx. induction vectors as [|v vectors IH]; intros f idx Hf Hlen; [done |].
  simpl in Hlen. rewrite imap_cons. cbn [omap list_omap length].
  rewrite Hf, Nat.add_0_r.
  destruct (lookup_lt_is_Some_2 ids idx ltac:(lia)) as [id Hid].
  rewrite Hid. rewrite (drop_S _ _ _ Hid). cbn [take]. f_equal.
  apply IH; [| lia].
  intros i v'. cbn. rewrite Hf. f_equal. lia.
Qed.

End Batches.

Section BatchInsert.

Implicit Types (w : World) (t : gmap string Stored).

Lemma insert_runs w (vectors : list Embedding) (ids : list string)
    (payloads : list JsObject) t :
  table (db w) = Some t ->
  SupabaseDB.insert vectors ids payloads w
  = match insert_rows (imap (insert_row w ids payloads) vectors) t with
    | inr t' =>
        (Resolved tt,
         {| db := with_table (db w) t'; clock := clock w;
            ticks := (ticks w + length vectors)%nat; console := console w |})
    | inl e =>
        (Rejected (BackendFailure e),
         {| db := db w; clock := clock w; ticks := (ticks w + length vectors)%nat;
            console := console w ++ [error_line "Error during vector insert:"
                                       (BackendFailure e)] |})
    end.
Proof.
  intros Ht. unfold SupabaseDB.insert. run_method.
  rewrite insert_data_rows_0. cbn [db clock ticks console].
  unfold pg_insert. rewrite Ht.
  destruct (insert_rows _ t); reflexivity.
Qed.

Lemma insert_row_batch_ids w (vectors : list Embedding) (ids : list string)
    (payloads : list JsObject) :
  (length vectors <= length ids)%nat ->
  omap new_id (imap (insert_row w ids payloads) vectors) = take (length vectors) ids.
Proof.
  intros Hlen.
  rewrite (insert_row_ids _ 0 vectors ids); [by rewrite drop_0 | done | done].
Qed.

Lemma insert_row_batch_valid w (vectors : list Embedding) (ids : list string)
    (payloads : list JsObject) :
  Forall (fun r => is_Some (new_id r) /\ length (new_embedding r) = dimension)
    (imap (insert_row w ids payloads) vectors)
  <-> (length vectors <= length ids)%nat
      /\ Forall (fun v => length v = dimension) vectors.
Proof.
  rewrite !Forall_lookup. split.
  - intros Hrows. split.
    + destruct (decide (length vectors <= length ids)%nat) as [|Hlt]; [done |].
      destruct (lookup_lt_is_Some_2 vectors (length ids) ltac:(lia)) as [v Hv].
      destruct (Hrows (length ids) (insert_row w ids payloads (length ids) v))
        as [[id Hid] _].
      { by rewrite list_lookup_imap, Hv. }
      simpl in Hid. apply lookup_lt_Some in Hid. lia.
    + intros i v Hv.
      destruct (Hrows i (insert_row w ids payloads i v)) as [_ Hdim]; [| done].
      by rewrite list_lookup_imap, Hv.
  - intros [Hlen Hdims] i r Hr.
    rewrite list_lookup_imap in Hr.
    destruct (vectors !! i) as [v|] eqn:Hv; [| done].
    injection Hr as <-. simpl. split; [| by apply (Hdims i)].
    apply lookup_lt_is_Some_2. apply lookup_lt_Some in Hv. lia.
Qed.

End BatchInsert.

(** X1. A batch [insert] that resolves has written the whole batch: the
    table existed, the clock was read once per vector, and afterwards there
    is, for the vector at each index [i], an id at that index under which
    the table holds that vector with the [i]-th payload (the empty object
    when there is none) stamped with the [i]-th reading of the clock; every
    id that is not among the first ids, one per vector, reads as before. *)
Theorem insert_stores_the_batch (w w' : World)
    (vectors : list Embedding) (ids : list string) (payloads : list JsObject) :
  SupabaseDB.insert vectors ids payloads w = (Resolved tt, w') ->
  exists t t' : gmap string Stored,
    table (db w) = Some t
    /\ w' = {| db := with_table (db w) t'; clock := clock w;
              ticks := (ticks w + length vectors)%nat; console := console w |}
    /\ (forall (i : nat) (v : Embedding),
          vectors !! i = Some v ->
          exists id : string,
            ids !! i = Some id
            /\ t' !! id
               = Some {| embedding := v;
                         metadata :=
                           <["created_at" := JStr (toISOString (clock w (ticks w + i)%nat))]>
                             (default ∅ (payloads !! i)) |})
    /\ (forall id, id ∉ take (length vectors) ids -> t' !! id = t !! id).
Proof.
  intros Hinsert.
  destruct (table (db w)) as [t|] eqn:Ht.
  - rewrite (insert_runs w vectors ids payloads t Ht) in Hinsert.
    destruct (insert_rows _ t) as [e|t'] eqn:Hrows; [discriminate |].
    injection Hinsert as <-.
    destruct (insert_rows_written _ _ _ Hrows) as (Hall & _ & _ & Hother & Hstored).
    apply insert_row_batch_valid in Hall as [Hlen _].
    pose proof (insert_row_batch_ids w vectors ids payloads Hlen) as Hids.
    exists t, t'. split; [reflexivity |]. split; [reflexivity |]. split.
    + intros i v Hv.
      destruct (lookup_lt_is_Some_2 ids i) as [id Hid].
      { apply lookup_lt_Some in Hv. lia. }
      exists id. split; [exact Hid |].
      apply (Hstored (insert_row w ids payloads i v)); [| exact Hid].
      apply list_elem_of_lookup. exists i. by rewrite list_lookup_imap, Hv.
    + intros id Hnot. apply Hother. by rewrite Hids.
  - exfalso. revert Hinsert. unfold SupabaseDB.insert. run_method.
    rewrite insert_data_rows_0. cbn [db]. unfold pg_insert. rewrite Ht. discriminate.
Qed.

(** X2. [insert] resolves only for such a batch: the table exists, there is
    an id for every vector, every vector has the dimension of the column, and
    the ids used are distinct and were not in the table.  A missing id, a
    repeated id, an id the table already holds or a vector of another
    dimension makes the whole [insert] reject. *)
Theorem insert_resolves_only_for_a_valid_batch (w w' : World)
    (vectors : list Embedding) (ids : list string) (payloads : list JsObject) :
  SupabaseDB.insert vectors ids payloads w = (Resolved tt, w') ->
  exists t : gmap string Stored,
    table (db w) = Some t
    /\ (length vectors <= length ids)%nat
    /\ Forall (fun v => length v = dimension) vectors
    /\ NoDup (take (length vectors) ids)
    /\ (forall id, id ∈ take (length vectors) ids -> t !! id = None).
Proof.
  intros Hinsert.
  destruct (table (db w)) as [t|] eqn:Ht.
  - rewrite (insert_runs w vectors ids payloads t Ht) in Hinsert.
    destruct (insert_rows _ t) as [e|t'] eqn:Hrows; [discriminate |].
    destruct (insert_rows_written _ _ _ Hrows) as (Hall & Hnodup & Hfresh & _).
    apply insert_row_batch_valid in Hall as [Hlen Hdims].
    rewrite (insert_row_batch_ids w vectors ids payloads Hlen) in Hnodup, Hfresh.
    by exists t.
  - exfalso. revert Hinsert. unfold SupabaseDB.insert. run_method.
    rewrite insert_data_rows_0. cbn [db]. unfold pg_insert. rewrite Ht. discriminate.
Qed.

(** ** The console *)

Section Console.

Lemma quiet_ret {A : Type} (a : A) : quiet (mret a : M A).
Proof. by intros w. Qed.

Lemma quiet_throw {A : Type} (e : Error) : quiet (throw e : M A).
Proof. by intros w. Qed.

Lemma quiet_bind {A B : Type} (m : M A) (f : A -> M B) :
  quiet m -> (forall a, quiet (f a)) -> quiet (m ≫= f).
Proof.
  intros Hm Hf w. unfold mbind, M_bind.
  specialize (Hm w). destruct (m w) as [[a|e] w1]; simpl in *; [| done].
  by rewrite Hf.
Qed.

Lemma quiet_await {A : Type} (request : Database -> Response A * Database) :
  quiet (await request).
Proof. intros w. unfold await. by destruct (request (db w)). Qed.

Lemma quiet_new_Date : quiet new_Date_toISOString.
Proof. by intros w. Qed.

Lemma quiet_throw_if_error {A : Type} (r : Response A) : quiet (throw_if_error r).
Proof. intros w. unfold throw_if_error. by destruct (error r). Qed.

Lemma quiet_insert_data (idx : nat) (vectors : list Embedding) (ids : list string)
    (payloads : list JsObject) :
  quiet (SupabaseDB.insert_data idx vectors ids payloads).
Proof. intros w. by rewrite insert_data_rows. Qed.

(** The catch clause of a method around a body that writes nothing. *)
Lemma logged_logs_only_rejection {A : Type} (label : string) (body : M A) (w : World) :
  quiet body -> logs_only_rejection label w (logged label body w).
Proof.
  intros Hbody. specialize (Hbody w).
  unfold logs_only_rejection, logged, try_catch.
  destruct (body w) as [[a|e] w1]; simpl in *; [done |].
  by rewrite Hbody.
Qed.

End Console.

Create HintDb quiet.
#[local] Hint Resolve quiet_ret quiet_throw quiet_await quiet_new_Date
  quiet_throw_if_error quiet_insert_data : quiet.

(** X4. Each of the seven methods writes on the console exactly when it
    rejects: nothing after it resolved, and after it rejected one error line
    with the label of the method and the error it threw. *)
Theorem methods_log_exactly_their_rejection (distance : Embedding -> Embedding -> Q)
    (w : World) (vectors : list Embedding) (ids : list string)
    (payloads : list JsObject) (query vector : Embedding) (limit : option Z)
    (filters : option SearchFilters) (vectorId : string) (payload : JsObject) :
  logs_only_rejection "Error during vector insert:" w
    (SupabaseDB.insert vectors ids payloads w)
  /\ logs_only_rejection "Error during vector search:" w
       (SupabaseDB.search distance query limit filters w)
  /\ logs_only_rejection "Error getting vector:" w (SupabaseDB.get vectorId w)
  /\ logs_only_rejection "Error during vector update:" w
       (SupabaseDB.update vectorId vector payload w)
  /\ logs_only_rejection "Error deleting vector:" w (SupabaseDB.delete vectorId w)
  /\ logs_only_rejection "Error deleting collection:" w (SupabaseDB.deleteCol w)
  /\ logs_only_rejection "Error listing vectors:" w
       (SupabaseDB.list filters limit w).
Proof.
  repeat split; apply logged_logs_only_rejection.
  - repeat (apply quiet_bind; [auto with quiet | intros]); auto with quiet.
  - apply quiet_bind; [auto with quiet | intros r].
    unfold SupabaseDB.search_response.
    apply quiet_bind; [auto with quiet | intros _].
    destruct (data r); auto with quiet.
  - apply quiet_bind; [auto with quiet | intros r].
    unfold SupabaseDB.get_response.
    apply quiet_bind; [auto with quiet | intros _].
    destruct (data r); auto with quiet.
  - repeat (apply quiet_bind; [auto with quiet | intros]); auto with quiet.
  - repeat (apply quiet_bind; [auto with quiet | intros]); auto with quiet.
  - repeat (apply quiet_bind; [auto with quiet | intros]); auto with quiet.
  - apply quiet_bind; [auto with quiet | intros r].
    unfold SupabaseDB.list_response.
    apply quiet_bind; [auto with quiet | intros _].
    destruct (data r); auto with quiet.
Qed.

(** ** Writes *)

Section Writes.

Implicit Types (w : World) (t : gmap string Stored) (id : string).

Lemma delete_runs w t id :
  table (db w) = Some t ->
  SupabaseDB.delete id w = (Resolved tt, with_db w (with_table (db w) (base.delete id t))).
Proof.
  intros Ht. unfold SupabaseDB.delete. run_method.
  unfold pg_delete. rewrite Ht. cbn. by rewrite delete_rows_id.
Qed.

Lemma delete_without_table w id :
  table (db w) = None ->
  SupabaseDB.delete id w
  = (Rejected (BackendFailure UndefinedTable),
     {| db := db w; clock := clock w; ticks := ticks w;
        console := console w ++ [error_line "Error deleting vector:"
                                   (BackendFailure UndefinedTable)] |}).
Proof.
  intros Ht. unfold SupabaseDB.delete. run_method.
  unfold pg_delete. by rewrite Ht.
Qed.

Lemma update_answer w id (vector : Embedding) (p : JsObject) :
  (pg_update vector (<["updated_at" := JStr (toISOString (clock w (ticks w)))]> p)
     [IdEq id] (db w)).2
  = match table (db w) with
    | Some t =>
        if has_dimension vector
        then with_table (db w)
               (map_imap (fun k r =>
                            Some (if holds_all [IdEq id] k r
                                  then {| embedding := vector;
                                          metadata :=
                                            <["updated_at" :=
                                              JStr (toISOString (clock w (ticks w)))]> p |}
                                  else r)) t)
        else db w
    | None => db w
    end.
Proof.
  unfold pg_update. destruct (table (db w)); [| done].
  by destruct (has_dimension vector).
Qed.

Lemma update_database w id (vector : Embedding) (p : JsObject) :
  db (SupabaseDB.update id vector p w).2
  = (pg_update vector (<["updated_at" := JStr (toISOString (clock w (ticks w)))]> p)
       [IdEq id] (db w)).2.
Proof.
  unfold SupabaseDB.update. run_method. cbn [db clock ticks console].
  destruct (pg_update _ _ _ (db w)) as [r d]. cbn [db clock ticks console fst snd].
  by destruct (error r).
Qed.

Lemma update_rejected w w' id (vector : Embedding) (p : JsObject) (e : Error) :
  SupabaseDB.update id vector p w = (Rejected e, w') -> db w' = db w.
Proof.
  unfold SupabaseDB.update. run_method. unfold pg_update. cbn [db clock ticks console].
  destruct (table (db w)) as [t|]; cbn [db clock ticks console error failed succeeded negb].
  - destruct (has_dimension vector);
      cbn [db clock ticks console error failed succeeded negb]; [discriminate |].
    by intros [= _ <-].
  - by intros [= _ <-].
Qed.

Lemma delete_rejected (ps : list Predicate) (label : string) w w' (e : Error) :
  logged label (r ← await (pg_delete ps); throw_if_error r) w = (Rejected e, w') ->
  db w' = db w.
Proof.
  run_method. unfold pg_delete.
  destruct (table (db w)) as [t|]; cbn; [discriminate |].
  by intros [= _ <-].
Qed.

Lemma insert_rejected w w' (vectors : list Embedding) (ids : list string)
    (payloads : list JsObject) (e : Error) :
  SupabaseDB.insert vectors ids payloads w = (Rejected e, w') -> db w' = db w.
Proof.
  destruct (table (db w)) as [t|] eqn:Ht.
  - rewrite (insert_runs w vectors ids payloads t Ht).
    destruct (insert_rows _ t); [| discriminate]. by intros [= _ <-].
  - unfold SupabaseDB.insert. run_method. rewrite insert_data_rows_0. cbn [db].
    unfold pg_insert. rewrite Ht. cbn. by intros [= _ <-].
Qed.

End Writes.

(** X3. A write that rejects has written nothing: after a rejected [insert]
    (of a batch of any size), [update], [delete] or [deleteCol] the database
    is the one before the call. *)
Theorem rejected_writes_write_nothing (w w' : World) (e : Error) :
  (forall (vectors : list Embedding) (ids : list string) (payloads : list JsObject),
      SupabaseDB.insert vectors ids payloads w = (Rejected e, w') -> db w' = db w)
  /\ (forall (id : string) (vector : Embedding) (p : JsObject),
        SupabaseDB.update id vector p w = (Rejected e, w') -> db w' = db w)
  /\ (forall id : string, SupabaseDB.delete id w = (Rejected e, w') -> db w' = db w)
  /\ (SupabaseDB.deleteCol w = (Rejected e, w') -> db w' = db w).
Proof.
  split; [intros vectors ids payloads; apply insert_rejected |].
  split; [intros id vector p; apply update_rejected |].
  split; [intros id |]; apply delete_rejected.
Qed.

(** X5. On an existing table [delete(id)] resolves and removes the record
    under [id] and no other: afterwards the id is not in the table and every
    other id holds the embedding and the metadata it held. *)
Theorem delete_removes_exactly_the_record (w : World) (t : gmap string Stored)
    (id : string) :
  table (db w) = Some t ->
  exists (w1 : World) (t1 : gmap string Stored),
    SupabaseDB.delete id w = (Resolved tt, w1)
    /\ table (db w1) = Some t1
    /\ t1 !! id = None
    /\ (forall k : string, k <> id -> t1 !! k = t !! k)
    /\ console w1 = console w.
Proof.
  intros Ht. eexists _, (base.delete id t).
  split; [apply (delete_runs w t id Ht) |].
  split; [reflexivity |].
  split; [apply lookup_delete_eq |].
  split; [| reflexivity].
  intros k Hk. by apply lookup_delete_ne.
Qed.

(** X6. [update] never adds or removes a record and touches no other id:
    whatever its arguments and however it settles, the ids of the table are
    the same after it as before, and every id other than the one given holds
    what it held. *)
Theorem update_keeps_the_ids (w : World) (id : string) (vector : Embedding)
    (p : JsObject) :
  let before := Sample.table_of w in
  let after := Sample.table_of (SupabaseDB.update id vector p w).2 in
  dom after = dom before
  /\ forall k : string, k <> id -> after !! k = before !! k.
Proof.
  intros before after.
  assert (Hlookup : forall k, after !! k
                              = if decide (k = id)
                                then match before !! id with
                                     | Some r => after !! id
                                     | None => None
                                     end
                                else before !! k).
  { intros k. unfold after, before, Sample.table_of.
    rewrite update_database, update_answer.
    destruct (table (db w)) as [t|] eqn:Ht; cbn.
    - destruct (has_dimension vector); cbn.
      + rewrite !update_rows_id. destruct (decide (k = id)) as [->|]; [| done].
        rewrite decide_True by done. by destruct (t !! id).
      + rewrite Ht. cbn. destruct (decide (k = id)) as [->|]; [| done].
        by destruct (t !! id).
    - rewrite Ht. cbn. rewrite !lookup_empty. by case_decide. }
  split.
  - apply set_eq. intros k. rewrite !elem_of_dom, Hlookup.
    destruct (decide (k = id)) as [->|]; [| done].
    destruct (before !! id) as [r|] eqn:Hid.
    + split; [by eexists |]. intros _.
      unfold after, Sample.table_of in *.
      rewrite update_database, update_answer.
      unfold before, Sample.table_of in Hid.
      destruct (table (db w)) as [t|] eqn:Ht; cbn in *; [| by rewrite lookup_empty in Hid].
      destruct (has_dimension vector); cbn.
      * rewrite update_rows_id, decide_True by done. rewrite Hid. by eexists.
      * rewrite Ht. cbn. rewrite Hid. by eexists.
    + split; intros [? ?]; done.
  - intros k Hk. rewrite Hlookup. by rewrite decide_False.
Qed.

(** X7. Inserting a record under an id the table does not hold and deleting
    that id leaves the database as it was before the two calls. *)
Theorem insert_then_delete_restores (w : World) (t : gmap string Stored)
    (vector : Embedding) (id : string) (p : JsObject) :
  table (db w) = Some t -> t !! id = None -> length vector = dimension ->
  exists w1 w2 : World,
    SupabaseDB.insert [vector] [id] [p] w = (Resolved tt, w1)
    /\ SupabaseDB.delete id w1 = (Resolved tt, w2)
    /\ db w2 = db w.
Proof.
  intros Ht Hid Hdim.
  set (r := {| embedding := vector;
               metadata := <["created_at" := JStr (toISOString (clock w (ticks w)))]> p |}).
  set (w1 := {| db := with_table (db w) (<[id := r]> t); clock := clock w;
                ticks := S (ticks w); console := console w |}).
  exists w1, (with_db w1 (with_table (db w1) (base.delete id (<[id := r]> t)))).
  split; [apply (insert_one w t id vector p Ht Hid Hdim) |].
  split; [by apply delete_runs |].
  unfold with_db, w1, with_table. cbn [db match_vectors_installed].
  rewrite delete_insert_eq, delete_id by done.
  destruct (db w) as [tb f]. simpl in Ht. by subst tb.
Qed.

(** ** Listing *)

Section Listing.

Implicit Types (w : World) (t : gmap string Stored) (id : string) (r : Stored).

(** The filters [list] sends hold of a record exactly when its metadata
    matches the filter entry by entry, as text. *)
Lemma list_predicates_match (filters : option SearchFilters) id r :
  holds_all (SupabaseDB.list_predicates filters) id r = true
  <-> text_matches (default ∅ filters) r.
Proof.
  split.
  - intros Hall k v Hk. destruct filters as [f|]; simpl in Hk.
    + by apply (list_predicates_hold f id r).
    + by rewrite lookup_empty in Hk.
  - intros Hmatch. unfold holds_all. apply forallb_forall. intros p Hp.
    destruct filters as [f|]; simpl in Hp; [| done].
    apply in_map_iff in Hp as ([k v] & <- & Hin).
    apply list_elem_of_In, elem_of_map_to_list in Hin.
    simpl. rewrite (Hmatch k v Hin). by apply bool_decide_eq_true_2.
Qed.

Lemma filter_keeps_distinct_keys (f : string * Stored -> bool)
    (l : list (string * Stored)) :
  NoDup l.*1 -> NoDup (List.filter f l).*1.
Proof.
  induction l as [|kv l IH]; simpl; [done |].
  intros [Hnotin Hnodup]%NoDup_cons.
  destruct (f kv); [| auto]. simpl. apply NoDup_cons. split; [| auto].
  intros Hin. apply Hnotin.
  apply list_elem_of_fmap in Hin as (kv' & -> & Hin').
  apply list_elem_of_In, filter_In in Hin' as [Hin' _].
  apply list_elem_of_fmap. exists kv'. split; [done |]. by apply list_elem_of_In.
Qed.

Lemma row_result_ids (rows : list (string * Stored)) :
  SupabaseDB.vector_id <$> (SupabaseDB.row_result <$> (to_row <$> rows)) = rows.*1.
Proof.
  rewrite <- !list_fmap_compose. apply list_fmap_ext. by intros i [k r] _.
Qed.

Lemma NoDup_take {A : Type} (n : nat) (l : list A) : NoDup l -> NoDup (take n l).
Proof.
  intros Hl. apply (sublist_NoDup (take n l) l Hl). apply sublist_take.
Qed.

Lemma length_filter_decide {A : Type} (f : A -> bool) (P : A -> Prop)
    `{!forall x, Decision (P x)} (l : list A) :
  (forall x, f x = true <-> P x) ->
  length (List.filter f l) = length (filter P l).
Proof.
  intros Hf. induction l as [|x l IH]; [done |].
  simpl. rewrite filter_cons.
  destruct (f x) eqn:Hx; destruct (decide (P x)) as [HP|HP]; simpl; try congruence.
  - exfalso. by apply HP, Hf.
  - apply Hf in HP. congruence.
Qed.

Lemma filter_all {A : Type} (f : A -> bool) (l : list A) :
  (forall x, f x = true) -> List.filter f l = l.
Proof.
  intros Hf. induction l as [|x l IH]; [done |]. simpl. by rewrite Hf, IH.
Qed.

(** The number of rows the filters of [list] hold of is the number of
    records whose metadata matches the filter. *)
Lemma list_total (filters : option SearchFilters) t :
  length (List.filter
            (fun kv => holds_all (SupabaseDB.list_predicates filters) kv.1 kv.2)
            (map_to_list t))
  = size (filter (fun kv : string * Stored => text_matches (default ∅ filters) kv.2) t).
Proof.
  rewrite (length_filter_decide _
             (fun kv : string * Stored => text_matches (default ∅ filters) kv.2)).
  2: { intros [id r]. apply list_predicates_match. }
  rewrite map_filter_alt, map_size_list_to_map; [done |].
  apply (sublist_NoDup _ (map_to_list t).*1); [apply NoDup_fst_map_to_list |].
  apply fmap_sublist, sublist_filter.
Qed.

(** The results of a [list] that resolves, in terms of the table. *)
Lemma list_resolved_results w w' (filters : option SearchFilters) (limit : option Z)
    (results : list SupabaseDB.VectorStoreResult) (total : nat) :
  SupabaseDB.list filters limit w = (Resolved (results, total), w') ->
  exists t,
    table (db w) = Some t /\ 0 <= default 100 limit /\ w' = w
    /\ results
       = (fun kv => stored_result kv.1 kv.2)
           <$> take (Z.to_nat (default 100 limit))
                 (List.filter
                    (fun kv => holds_all (SupabaseDB.list_predicates filters) kv.1 kv.2)
                    (map_to_list t))
    /\ total
       = size (filter (fun kv : string * Stored =>
                         text_matches (default ∅ filters) kv.2) t).
Proof.
  intros Hlist.
  destruct (list_resolved _ _ _ _ _ _ Hlist) as (t & Ht & Hlimit & Heq).
  rewrite Heq in Hlist. injection Hlist as <- <- <-.
  exists t. split; [done |]. split; [done |]. split; [done |]. split.
  - change (map ?f ?l) with (f <$> l).
    rewrite <- fmap_take, <- list_fmap_compose. by apply list_fmap_ext.
  - rewrite length_map. apply list_total.
Qed.

End Listing.

(** X8. The results of [list] are cut at the limit, 100 when none is given,
    while the total counts every matching record whatever the limit: for a
    filter whose keys are names of fields, a [list] that resolves returns as
    total the number of records of the table whose metadata has, under every
    key of the filter, the text the filter value is sent as, and as results
    [min limit total] of these records, each under a different id. *)
Theorem list_cuts_at_the_limit_and_counts_all (w w' : World)
    (filters : option SearchFilters) (limit : option Z)
    (results : list SupabaseDB.VectorStoreResult) (total : nat) :
  plain_keys (default ∅ filters) ->
  SupabaseDB.list filters limit w = (Resolved (results, total), w') ->
  exists t : gmap string Stored,
    table (db w) = Some t
    /\ total
       = size (filter (fun kv : string * Stored =>
                         text_matches (default ∅ filters) kv.2) t)
    /\ 0 <= default 100 limit
    /\ length results = Nat.min (Z.to_nat (default 100 limit)) total
    /\ NoDup (SupabaseDB.vector_id <$> results)
    /\ (forall x : SupabaseDB.VectorStoreResult,
          x ∈ results ->
          exists (id : string) (r : Stored),
            t !! id = Some r /\ text_matches (default ∅ filters) r
            /\ x = stored_result id r)
    /\ w' = w.
Proof.
  intros _ Hlist.
  destruct (list_resolved_results _ _ _ _ _ _ Hlist) as (t & Ht & Hlimit & -> & -> & ->).
  exists t. split; [done |]. split; [done |]. split; [done |]. split.
  { rewrite length_fmap, length_take. by rewrite list_total. }
  split.
  { rewrite <- list_fmap_compose.
    match goal with
    | |- NoDup (_ <$> ?l) => replace (_ <$> l) with (l.*1) by (by apply list_fmap_ext)
    end.
    rewrite fmap_take. apply NoDup_take.
    apply filter_keeps_distinct_keys, NoDup_fst_map_to_list. }
  split; [| done].
  intros x Hx.
  apply list_elem_of_fmap in Hx as ([id r] & -> & Hkv).
  apply (subseteq_take (Z.to_nat (default 100 limit))) in Hkv.
  apply list_elem_of_In, filter_In in Hkv as [Hin Hholds].
  apply list_elem_of_In, elem_of_map_to_list in Hin. simpl in *.
  exists id, r. split; [done |]. split; [| done].
  by apply (list_predicates_match filters id r).
Qed.

(** X9. When the total does not exceed the limit, [list] returns the
    matching records and no other: for a filter whose keys are names of
    fields, the results are the records of the table whose metadata has,
    under every key of the filter, the text the filter value is sent as
    (every record, when no filter or the empty filter is given), each with
    its id, its metadata and no score. *)
Theorem list_returns_every_match (w w' : World) (t : gmap string Stored)
    (filters : option SearchFilters) (limit : option Z)
    (results : list SupabaseDB.VectorStoreResult) (total : nat) :
  plain_keys (default ∅ filters) ->
  table (db w) = Some t ->
  SupabaseDB.list filters limit w = (Resolved (results, total), w') ->
  (total <= Z.to_nat (default 100%Z limit))%nat ->
  forall x : SupabaseDB.VectorStoreResult,
    x ∈ results
    <-> exists (id : string) (r : Stored),
          t !! id = Some r /\ text_matches (default ∅ filters) r
          /\ x = stored_result id r.
Proof.
  intros _ Ht Hlist Htotal x.
  destruct (list_resolved_results _ _ _ _ _ _ Hlist) as (t0 & Ht0 & _ & _ & -> & Heq).
  assert (t0 = t) as -> by congruence.
  rewrite Heq, <- list_total in Htotal.
  rewrite take_ge by done.
  split.
  - intros Hx.
    apply list_elem_of_fmap in Hx as ([id r] & -> & Hkv).
    apply list_elem_of_In, filter_In in Hkv as [Hin Hholds].
    apply list_elem_of_In, elem_of_map_to_list in Hin. simpl in *.
    exists id, r. split; [done |]. split; [| done].
    by apply (list_predicates_match filters id r).
  - intros (id & r & Hid & Hmatch & ->).
    apply list_elem_of_fmap. exists (id, r). split; [done |].
    apply list_elem_of_In, filter_In. split.
    + by apply list_elem_of_In, elem_of_map_to_list.
    + by apply list_predicates_match.
Qed.

(** X10. Without a filter, and with the empty object as filter, [list]
    settles the same way, and when it resolves the total is the number of
    records in the table. *)
Theorem list_without_filter_counts_the_table (w w' : World) (t : gmap string Stored)
    (limit : option Z) (results : list SupabaseDB.VectorStoreResult) (total : nat) :
  SupabaseDB.list (Some ∅) limit w = SupabaseDB.list None limit w
  /\ (table (db w) = Some t ->
      SupabaseDB.list None limit w = (Resolved (results, total), w') ->
      total = size t).
Proof.
  split.
  - unfold SupabaseDB.list, SupabaseDB.list_predicates.
    by rewrite map_to_list_empty.
  - intros Ht Hlist.
    destruct (list_resolved _ _ _ _ _ _ Hlist) as (t0 & Ht0 & _ & Heq).
    assert (t0 = t) as -> by congruence.
    rewrite Heq in Hlist. injection Hlist as _ <- _.
    rewrite length_map. rewrite <- length_map_to_list.
    f_equal. clear. induction (map_to_list t) as [|kv l IH]; [done |].
    simpl. by rewrite IH.
Qed.

(** ** Searching *)

Section Permuting.

Context {A : Type} (key : A -> Q).

Lemma insert_by_Permutation (x : A) (l : list A) : insert_by key x l ≡ₚ x :: l.
Proof.
  induction l as [|y l IH]; simpl; [done |].
  destruct (Qle_bool (key x) (key y)); [done |].
  rewrite IH. apply perm_swap.
Qed.

Lemma sort_by_Permutation (l : list A) : sort_by key l ≡ₚ l.
Proof.
  induction l as [|x l IH]; simpl; [done |].
  by rewrite insert_by_Permutation, IH.
Qed.

End Permuting.

Section Searching.

Variable distance : Embedding -> Embedding -> Q.

Implicit Types (w : World) (t : gmap string Stored) (id : string) (r : Stored).

(** The row the ranking function returns for a record of the table. *)
Lemma match_vectors_rows (p : VectorQueryParams) t (rows : list VectorSearchResult) :
  match_vectors distance p t = inr rows ->
  let selected :=
    List.filter (fun kv => where_clause (default ∅ (filter_param p)) kv.2) (map_to_list t) in
  0 <= match_count p
  /\ Forall (fun kv => length (embedding kv.2) = length (query_embedding p)) selected
  /\ rows
     = take (Z.to_nat (match_count p))
         ((fun kv => {| result_id := kv.1;
                        similarity := 1 - distance (embedding kv.2) (query_embedding p);
                        result_metadata := metadata kv.2 |})
            <$> sort_by (fun kv => distance (embedding kv.2) (query_embedding p)) selected).
Proof.
  unfold match_vectors. intros Hrows.
  set (selected := List.filter _ (map_to_list t)) in *.
  destruct (existsb _ selected) eqn:Hdims; [discriminate |].
  destruct (match_count p <? 0) eqn:Hneg; [discriminate |].
  apply Z.ltb_ge in Hneg. injection Hrows as <-.
  split; [done |]. split; [| done].
  apply Forall_forall. intros kv Hkv.
  destruct (decide (length (embedding kv.2) = length (query_embedding p))) as [|Hne];
    [done |].
  assert (existsb (fun kv => negb (bool_decide (length (embedding kv.2)
                                               = length (query_embedding p)))) selected
          = true); [| congruence].
  apply existsb_exists. exists kv. split; [by apply list_elem_of_In |].
  by rewrite bool_decide_eq_false_2.
Qed.

(** A record passes the where clause only if its metadata holds, under every
    key of the filter, a value that contains the value of the filter. *)
Lemma where_clause_contains (f : SearchFilters) r (k : string) (v : Json) :
  where_clause f r = true -> f !! k = Some v ->
  exists x : Json, metadata r !! k = Some x /\ jsonb_contains x v = true.
Proof.
  unfold where_clause. intros Hwhere Hk.
  apply elem_of_map_to_list in Hk.
  destruct (map_to_list f) as [|kv l] eqn:Hl; [by apply not_elem_of_nil in Hk |].
  unfold contains in Hwhere. rewrite Hl in Hwhere.
  rewrite forallb_forall in Hwhere.
  specialize (Hwhere (k, v) ltac:(by apply list_elem_of_In)). simpl in Hwhere.
  destruct (metadata r !! k) as [x|]; [| discriminate]. by exists x.
Qed.

Lemma rpcQuery_fields (q : Embedding) (limit : option Z) (filters : option SearchFilters) :
  SupabaseDB.rpcQuery q limit filters
  = {| query_embedding := q; match_count := default 5 limit; filter_param := filters |}.
Proof. by destruct filters. Qed.

(** What a [search] that resolves returned, in terms of the table. *)
Lemma search_resolved_rows w w' (q : Embedding) (limit : option Z)
    (filters : option SearchFilters) (results : list SupabaseDB.VectorStoreResult) :
  SupabaseDB.search distance q limit filters w = (Resolved results, w') ->
  exists t,
    table (db w) = Some t
    /\ 0 <= default 5 limit
    /\ Forall (fun kv => length (embedding kv.2) = length q)
         (List.filter (fun kv => where_clause (default ∅ filters) kv.2) (map_to_list t))
    /\ results
       = (fun kv => {| SupabaseDB.vector_id := kv.1;
                       SupabaseDB.payload := metadata kv.2;
                       SupabaseDB.score := Some (1 - distance (embedding kv.2) q)%Q |})
           <$> take (Z.to_nat (default 5 limit))
                 (sort_by (fun kv => distance (embedding kv.2) q)
                    (List.filter (fun kv => where_clause (default ∅ filters) kv.2)
                       (map_to_list t))).
Proof.
  intros Hsearch.
  apply search_resolved in Hsearch as [He Hresults].
  destruct (pg_rpc_match_vectors_succeeded distance _ _ He) as (t & rows & Ht & Hrows & Hr).
  rewrite Hr in Hresults. simpl in Hresults.
  rewrite rpcQuery_fields in Hrows.
  apply match_vectors_rows in Hrows as (Hlimit & Hdims & ->). simpl in *.
  exists t. split; [done |]. split; [done |]. split; [done |].
  subst results. change (map ?f ?l) with (f <$> l).
  rewrite <- fmap_take, <- list_fmap_compose. by apply list_fmap_ext.
Qed.

(** A [search] that resolves leaves the world as it was. *)
Lemma search_resolved_world w w' (q : Embedding) (limit : option Z)
    (filters : option SearchFilters) (results : list SupabaseDB.VectorStoreResult) :
  SupabaseDB.search distance q limit filters w = (Resolved results, w') -> w' = w.
Proof.
  unfold SupabaseDB.search, SupabaseDB.search_response. run_method.
  pose proof (pg_rpc_match_vectors_reads distance
                (SupabaseDB.rpcQuery q limit filters) (db w)) as Hd.
  destruct (pg_rpc_match_vectors distance _ (db w)) as [r d]. simpl in Hd. subst d.
  destruct (error r); cbn; [discriminate |].
  destruct (data r); intros [= _ <-]; by destruct w.
Qed.

(** Without a filter the ranking function ranks every record of the table. *)
Lemma search_resolved_all w w' (q : Embedding) (limit : option Z)
    (results : list SupabaseDB.VectorStoreResult) :
  SupabaseDB.search distance q limit None w = (Resolved results, w') ->
  exists t,
    table (db w) = Some t
    /\ results
       = (fun kv => ranked_result distance q kv.1 kv.2)
           <$> take (Z.to_nat (default 5 limit))
                 (sort_by (fun kv => distance (embedding kv.2) q) (map_to_list t)).
Proof.
  intros Hsearch.
  destruct (search_resolved_rows _ _ _ _ _ _ Hsearch) as (t & Ht & _ & _ & ->).
  exists t. split; [done |].
  rewrite filter_all; [done |]. intros kv. apply where_clause_empty.
Qed.

End Searching.

(** X11. [search] returns records of the table, each once: a result carries
    the id of a stored record, its metadata as payload and as score one minus
    the distance of its embedding to the query; the embedding has the
    dimension of the query, and under every key of the filter the metadata
    holds a value that contains the value of the filter. *)
Theorem search_results_are_stored_records (distance : Embedding -> Embedding -> Q)
    (w w' : World) (q : Embedding) (limit : option Z) (filters : option SearchFilters)
    (results : list SupabaseDB.VectorStoreResult) :
  SupabaseDB.search distance q limit filters w = (Resolved results, w') ->
  exists t : gmap string Stored,
    table (db w) = Some t
    /\ NoDup (SupabaseDB.vector_id <$> results)
    /\ forall r : SupabaseDB.VectorStoreResult,
         r ∈ results ->
         exists stored : Stored,
           t !! SupabaseDB.vector_id r = Some stored
           /\ SupabaseDB.payload r = metadata stored
           /\ SupabaseDB.score r = Some (1 - distance (embedding stored) q)%Q
           /\ length (embedding stored) = length q
           /\ forall (k : string) (v : Json),
                default ∅ filters !! k = Some v ->
                exists x : Json,
                  metadata stored !! k = Some x /\ jsonb_contains x v = true.
Proof.
  intros Hsearch.
  destruct (search_resolved_rows distance _ _ _ _ _ _ Hsearch)
    as (t & Ht & _ & Hdims & ->).
  exists t. split; [done |]. split.
  - rewrite <- list_fmap_compose.
    match goal with
    | |- NoDup (_ <$> ?l) => replace (_ <$> l) with (l.*1) by (by apply list_fmap_ext)
    end.
    rewrite fmap_take. apply NoDup_take.
    rewrite sort_by_Permutation.
    apply filter_keeps_distinct_keys, NoDup_fst_map_to_list.
  - intros r Hr.
    apply list_elem_of_fmap in Hr as ([id stored] & -> & Hkv).
    apply (subseteq_take (Z.to_nat (default 5 limit))) in Hkv.
    rewrite sort_by_Permutation in Hkv.
    rewrite Forall_forall in Hdims. specialize (Hdims _ Hkv).
    apply list_elem_of_In, filter_In in Hkv as [Hin Hwhere].
    apply list_elem_of_In, elem_of_map_to_list in Hin. simpl in *.
    exists stored. repeat (split; [done |]).
    intros k v Hk. by apply (where_clause_contains (default ∅ filters)).
Qed.

(** X12. When the limit is at least the number of stored records, a [search]
    that resolves returns every record that passes the where clause of the
    ranking function, so every record when no filter or the empty filter is
    given. *)
Theorem search_returns_every_match (distance : Embedding -> Embedding -> Q)
    (w w' : World) (t : gmap string Stored) (q : Embedding) (limit : option Z)
    (filters : option SearchFilters) (results : list SupabaseDB.VectorStoreResult)
    (id : string) (stored : Stored) :
  table (db w) = Some t ->
  SupabaseDB.search distance q limit filters w = (Resolved results, w') ->
  Z.of_nat (size t) <= default 5 limit ->
  t !! id = Some stored ->
  where_clause (default ∅ filters) stored = true ->
  {| SupabaseDB.vector_id := id;
     SupabaseDB.payload := metadata stored;
     SupabaseDB.score := Some (1 - distance (embedding stored) q)%Q |} ∈ results.
Proof.
  intros Ht Hsearch Hsize Hid Hwhere.
  destruct (search_resolved_rows distance _ _ _ _ _ _ Hsearch)
    as (t0 & Ht0 & _ & _ & ->).
  assert (t0 = t) as -> by congruence.
  apply list_elem_of_fmap. exists (id, stored). split; [done |].
  rewrite take_ge.
  - rewrite sort_by_Permutation.
    apply list_elem_of_In, filter_In. split; [| done].
    by apply list_elem_of_In, elem_of_map_to_list.
  - rewrite length_sort_by.
    pose proof (List.filter_length_le
                  (fun kv : string * Stored => where_clause (default ∅ filters) kv.2)
                  (map_to_list t)) as Hle.
    rewrite length_map_to_list in Hle. lia.
Qed.

(** C5. In every world, for every query vector and for the limit 5 as for
    any other, [search] with the empty object as filter and [search] without
    a filter settle the same way, with the same results in the same order
    and the same world; and the filter that is absent or empty matches every
    record: when the call resolves, its results are records of the table,
    each once, as many as the table holds up to the limit, and a record of
    the table that is not among them is at least as far from the query as
    every result, so that it was left out by the limit and not by the
    filter. *)
Theorem search_empty_filter_is_no_filter (distance : Embedding -> Embedding -> Q)
    (w : World) (q : Embedding) (limit : option Z) :
  SupabaseDB.search distance q limit (Some ∅) w
  = SupabaseDB.search distance q limit None w
  /\ forall (results : list SupabaseDB.VectorStoreResult) (w' : World),
       SupabaseDB.search distance q limit None w = (Resolved results, w') ->
       exists t : gmap string Stored,
         table (db w) = Some t
         /\ length results = Nat.min (Z.to_nat (default 5 limit)) (size t)
         /\ NoDup (SupabaseDB.vector_id <$> results)
         /\ (forall x : SupabaseDB.VectorStoreResult,
               x ∈ results ->
               exists (id : string) (r : Stored),
                 t !! id = Some r /\ x = ranked_result distance q id r)
         /\ (forall (id : string) (r : Stored),
               t !! id = Some r ->
               ranked_result distance q id r ∈ results
               \/ forall (x : SupabaseDB.VectorStoreResult) (s : Q),
                    x ∈ results -> SupabaseDB.score x = Some s ->
                    (1 - distance (embedding r) q <= s)%Q).
Proof.
  split; [reflexivity |].
  intros results w' Hsearch.
  destruct (search_resolved_all distance _ _ _ _ _ Hsearch) as (t & Ht & ->).
  set (key := fun kv : string * Stored => distance (embedding kv.2) q).
  set (n := Z.to_nat (default 5 limit)).
  exists t. split; [done |]. split.
  { by rewrite length_fmap, length_take, length_sort_by, length_map_to_list. }
  split.
  { rewrite <- list_fmap_compose.
    match goal with
    | |- NoDup (_ <$> ?l) => replace (_ <$> l) with (l.*1) by (by apply list_fmap_ext)
    end.
    rewrite fmap_take. apply NoDup_take.
    rewrite sort_by_Permutation. apply NoDup_fst_map_to_list. }
  split.
  { intros x Hx.
    apply list_elem_of_fmap in Hx as ([id r] & -> & Hkv).
    apply (subseteq_take n) in Hkv. rewrite sort_by_Permutation in Hkv.
    apply elem_of_map_to_list in Hkv. by exists id, r. }
  intros id r Hid.
  assert (Hkv : (id, r) ∈ sort_by key (map_to_list t)).
  { rewrite sort_by_Permutation. by apply elem_of_map_to_list. }
  rewrite <- (take_drop n (sort_by key (map_to_list t))) in Hkv.
  apply elem_of_app in Hkv as [Hkept|Hcut].
  - left. apply list_elem_of_fmap. by exists (id, r).
  - right. intros x s Hx Hs.
    apply list_elem_of_fmap in Hx as (kv & -> & Hkv).
    injection Hs as <-.
    pose proof (sorted_take_drop key _ n kv (id, r) (sort_by_sorted key _) Hkv Hcut) as Hle.
    unfold key in Hle. simpl in Hle. lra.
Qed.

(** ** Initialization, again *)

(** X13. On an existing table [initialize] resolves and keeps every record
    whose id is not [test_vector], embedding and metadata unchanged; a record
    the caller had stored under [test_vector] is deleted with the sentinel.
    Running it again changes nothing more. *)
Theorem initialize_keeps_the_other_records (self : SupabaseDB.SupabaseDB) (w : World)
    (t : gmap string Stored) :
  table (db w) = Some t ->
  exists (w1 : World) (t1 : gmap string Stored),
    SupabaseDB.initialize self w = (Resolved tt, w1)
    /\ table (db w1) = Some t1
    /\ t1 !! "test_vector" = None
    /\ (forall k : string, k <> "test_vector" -> t1 !! k = t !! k)
    /\ exists w2 : World,
         SupabaseDB.initialize self w1 = (Resolved tt, w2) /\ db w2 = db w1.
Proof.
  intros Ht.
  pose proof (initialize_with_table self w t Ht) as Hinit.
  eexists _, (base.delete "test_vector" t).
  split; [exact Hinit |]. split; [reflexivity |].
  split; [apply lookup_delete_eq |].
  split; [intros k Hk; by apply lookup_delete_ne |].
  eexists. split; [by apply initialize_with_table |].
  cbn [db]. unfold with_table. cbn [table match_vectors_installed].
  by rewrite delete_delete_eq.
Qed.

(** X14. [initialize] never calls [match_vectors]: on a database that has the
    table but not the function it resolves, and a [search] after it rejects
    with the error of the missing function. *)
Theorem initialize_does_not_probe_match_vectors
    (distance : Embedding -> Embedding -> Q) (self : SupabaseDB.SupabaseDB)
    (w : World) (t : gmap string Stored) (q : Embedding) (limit : option Z)
    (filters : option SearchFilters) :
  table (db w) = Some t ->
  match_vectors_installed (db w) = false ->
  exists w1 w2 : World,
    SupabaseDB.initialize self w = (Resolved tt, w1)
    /\ SupabaseDB.search distance q limit filters w1
       = (Rejected (BackendFailure UndefinedFunction), w2).
Proof.
  intros Ht Hf. eexists _, _.
  split; [apply (initialize_with_table self w t Ht) |].
  unfold SupabaseDB.search, SupabaseDB.search_response. run_method.
  unfold pg_rpc_match_vectors. cbn [db with_table match_vectors_installed].
  rewrite Hf. reflexivity.
Qed.

(** X15. The constructor never leaves a column name empty: a name that is
    not given or is the empty string becomes [embedding] or [metadata], a
    name that is given and not empty is kept, and the table name is taken as
    it is. *)
Theorem constructor_names_are_never_empty (config : SupabaseDB.SupabaseConfig)
    (w : World) :
  let self := (SupabaseDB.constructor config w).1.1 in
  SupabaseDB.tableName self = SupabaseDB.config_tableName config
  /\ SupabaseDB.embeddingColumnName self <> ""
  /\ SupabaseDB.metadataColumnName self <> ""
  /\ (forall s : string,
        s <> "" ->
        (SupabaseDB.config_embeddingColumnName config = Some s ->
         SupabaseDB.embeddingColumnName self = s)
        /\ (SupabaseDB.config_metadataColumnName config = Some s ->
            SupabaseDB.metadataColumnName self = s))
  /\ (SupabaseDB.config_embeddingColumnName config = Some ""
      \/ SupabaseDB.config_embeddingColumnName config = None ->
      SupabaseDB.embeddingColumnName self = "embedding")
  /\ (SupabaseDB.config_metadataColumnName config = Some ""
      \/ SupabaseDB.config_metadataColumnName config = None ->
      SupabaseDB.metadataColumnName self = "metadata").
Proof.
  cbn. unfold SupabaseDB.or_default.
  split; [done |].
  split; [destruct (SupabaseDB.config_embeddingColumnName config) as [s|];
          [case_bool_decide |]; done |].
  split; [destruct (SupabaseDB.config_metadataColumnName config) as [s|];
          [case_bool_decide |]; done |].
  split.
  - intros s Hs. split; intros ->; by rewrite bool_decide_eq_false_2.
  - split; intros [-> | ->]; done.
Qed.

(** ** Clearing and reading *)

(** X16. On an existing table [deleteCol] resolves and removes every record
    whose id is not the empty string; the record under the empty string, if
    there is one, stays as it is. *)
Theorem deleteCol_removes_the_nonempty_ids (w : World) (t : gmap string Stored) :
  table (db w) = Some t ->
  exists (w1 : World) (t1 : gmap string Stored),
    SupabaseDB.deleteCol w = (Resolved tt, w1)
    /\ table (db w1) = Some t1
    /\ (forall k : string, k <> "" -> t1 !! k = None)
    /\ t1 !! "" = t !! ""
    /\ console w1 = console w.
Proof.
  intros Ht. destruct (deleteCol_resolves w t Ht) as (t1 & Hdel & Ht1).
  eexists _, t1. split; [exact Hdel |]. split; [reflexivity |].
  split; [intros k Hk; by rewrite Ht1, decide_False |].
  split; [by rewrite Ht1, decide_True | reflexivity].
Qed.

(** X17. [get] resolves only for an id the table holds, and then with that
    record: the id asked for, the stored metadata as payload, no score; it
    never resolves with null and it leaves the world as it was. *)
Theorem get_resolves_with_the_stored_record (w w' : World) (id : string)
    (o : option SupabaseDB.VectorStoreResult) :
  SupabaseDB.get id w = (Resolved o, w') ->
  exists (t : gmap string Stored) (stored : Stored),
    table (db w) = Some t
    /\ t !! id = Some stored
    /\ o = Some (stored_result id stored)
    /\ w' = w.
Proof.
  intros Hget.
  destruct (table (db w)) as [t|] eqn:Ht.
  - destruct (t !! id) as [stored|] eqn:Hid.
    + rewrite (get_present w t id stored Ht Hid) in Hget.
      injection Hget as <- <-. by exists t, stored.
    + rewrite (get_missing w t id Ht Hid) in Hget. discriminate.
  - exfalso. revert Hget.
    unfold SupabaseDB.get, SupabaseDB.get_response. run_method.
    unfold pg_select. rewrite Ht. discriminate.
Qed.

(** ** The dimension of the stored embeddings *)

Section Dimension.

Implicit Types (w : World) (t : gmap string Stored) (id : string).

Lemma well_dimensioned_with_table (d : Database) t t' :
  table d = Some t -> well_dimensioned d ->
  (forall id r, t' !! id = Some r ->
                t !! id = Some r \/ length (embedding r) = dimension) ->
  well_dimensioned (with_table d t').
Proof.
  intros Ht Hd Hnew t0 id r [= <-] Hid.
  destruct (Hnew id r Hid) as [Hold|]; [| done]. by apply (Hd t id r).
Qed.

Lemma insert_keeps_dimension w (vectors : list Embedding) (ids : list string)
    (payloads : list JsObject) :
  well_dimensioned (db w) ->
  well_dimensioned (db (SupabaseDB.insert vectors ids payloads w).2).
Proof.
  intros Hd.
  destruct (table (db w)) as [t|] eqn:Ht; cycle 1.
  { unfold SupabaseDB.insert. run_method. rewrite insert_data_rows_0. cbn [db].
    unfold pg_insert. by rewrite Ht. }
  rewrite (insert_runs w vectors ids payloads t Ht).
  destruct (insert_rows _ t) as [|t'] eqn:Hrows; [done |]. cbn [snd db].
  apply (well_dimensioned_with_table _ t); [done | done |].
  destruct (insert_rows_written _ _ _ Hrows) as (Hall & _ & _ & Hother & Hstored).
  intros id r Hid.
  destruct (decide (id ∈ omap new_id (imap (insert_row w ids payloads) vectors)))
    as [Hin|Hnot].
  - right. apply list_elem_of_omap in Hin as (row & Hrow & Hnew).
    rewrite (Hstored row id Hrow Hnew) in Hid. injection Hid as <-.
    rewrite Forall_forall in Hall. by destruct (Hall row Hrow).
  - left. by rewrite <- (Hother id Hnot).
Qed.

Lemma update_keeps_dimension w id (vector : Embedding) (p : JsObject) :
  well_dimensioned (db w) ->
  well_dimensioned (db (SupabaseDB.update id vector p w).2).
Proof.
  intros Hd. rewrite update_database, update_answer.
  destruct (table (db w)) as [t|] eqn:Ht; [| done].
  destruct (has_dimension vector) eqn:Hdim; [| done].
  apply (well_dimensioned_with_table _ t); [done | done |].
  intros k r. rewrite map_lookup_imap.
  destruct (t !! k) as [old|]; simpl; [| done].
  destruct (holds_all [IdEq id] k old); intros [= <-]; [right | by left].
  by apply bool_decide_eq_true_1 in Hdim.
Qed.

Lemma delete_keeps_dimension w id :
  well_dimensioned (db w) -> well_dimensioned (db (SupabaseDB.delete id w).2).
Proof.
  intros Hd. destruct (table (db w)) as [t|] eqn:Ht.
  - rewrite (delete_runs w t id Ht). cbn [snd db with_db].
    apply (well_dimensioned_with_table _ t); [done | done |].
    intros k r [_ Hk]%lookup_delete_Some. by left.
  - by rewrite (delete_without_table w id Ht).
Qed.

Lemma deleteCol_keeps_dimension w :
  well_dimensioned (db w) -> well_dimensioned (db (SupabaseDB.deleteCol w).2).
Proof.
  intros Hd. destruct (table (db w)) as [t|] eqn:Ht.
  - destruct (deleteCol_resolves w t Ht) as (t' & -> & Ht'). cbn [snd db].
    apply (well_dimensioned_with_table _ t); [done | done |].
    intros k r. rewrite Ht'. case_decide; [subst k; by left | done].
  - destruct (SupabaseDB.deleteCol w) as [[[]|e] w'] eqn:Hdel.
    + exfalso. revert Hdel. unfold SupabaseDB.deleteCol. run_method.
      unfold pg_delete. rewrite Ht. discriminate.
    + cbn [snd]. by rewrite (delete_rejected _ _ _ _ _ Hdel).
Qed.

Lemma initialize_keeps_dimension (self : SupabaseDB.SupabaseDB) w :
  well_dimensioned (db w) -> well_dimensioned (db (SupabaseDB.initialize self w).2).
Proof.
  intros Hd. destruct (table (db w)) as [t|] eqn:Ht.
  - rewrite (initialize_with_table self w t Ht). cbn [snd db].
    apply (well_dimensioned_with_table _ t); [done | done |].
    intros k r [_ Hk]%lookup_delete_Some. by left.
  - by rewrite (initialize_without_table self w Ht).
Qed.

End Dimension.

(** X18. No method stores an embedding of another dimension than the one of
    the column: if every stored embedding has 1536 components before
    [insert], [update], [delete], [deleteCol] or [initialize], every stored
    embedding has 1536 components after it, whatever the arguments and
    however the call settles. *)
Theorem methods_keep_the_dimension (self : SupabaseDB.SupabaseDB) (w : World)
    (vectors : list Embedding) (ids : list string) (payloads : list JsObject)
    (id : string) (vector : Embedding) (p : JsObject) :
  well_dimensioned (db w) ->
  well_dimensioned (db (SupabaseDB.insert vectors ids payloads w).2)
  /\ well_dimensioned (db (SupabaseDB.update id vector p w).2)
  /\ well_dimensioned (db (SupabaseDB.delete id w).2)
  /\ well_dimensioned (db (SupabaseDB.deleteCol w).2)
  /\ well_dimensioned (db (SupabaseDB.initialize self w).2).
Proof.
  intros Hd.
  split; [by apply insert_keeps_dimension |].
  split; [by apply update_keeps_dimension |].
  split; [by apply delete_keeps_dimension |].
  split; [by apply deleteCol_keeps_dimension | by apply initialize_keeps_dimension].
Qed.

(** X19. [search] resolves only for a request the ranking function takes:
    the function and the table exist, the query has at least one component
    and no more than a vector can have, and the limit, 5 when none is given,
    is not negative and is a value of the type [int] of [match_count]; the
    world is left as it was.  A missing function or table, a query without
    components, a negative limit or one beyond [int] make [search] reject. *)
Theorem search_resolves_only_for_a_valid_request
    (distance : Embedding -> Embedding -> Q) (w w' : World) (q : Embedding)
    (limit : option Z) (filters : option SearchFilters)
    (results : list SupabaseDB.VectorStoreResult) :
  SupabaseDB.search distance q limit filters w = (Resolved results, w') ->
  match_vectors_installed (db w) = true
  /\ (exists t : gmap string Stored, table (db w) = Some t)
  /\ (0 < length q)%nat
  /\ Z.of_nat (length q) <= max_dimensions
  /\ 0 <= default 5 limit <= int_max
  /\ w' = w.
Proof.
  intros Hsearch.
  pose proof (search_resolved_world distance _ _ _ _ _ _ Hsearch) as Hw.
  destruct (search_resolved_rows distance _ _ _ _ _ _ Hsearch) as (t & Ht & Hlimit & _).
  apply search_resolved in Hsearch as [He _].
  apply pg_rpc_match_vectors_accepted in He as [Hf Hargs].
  revert Hargs. unfold match_vectors_arguments. rewrite rpcQuery_fields.
  cbn [query_embedding match_count].
  destruct (bool_decide (length q = 0%nat)) eqn:Hempty; [discriminate |].
  apply bool_decide_eq_false_1 in Hempty.
  destruct (max_dimensions <? Z.of_nat (length q)) eqn:Hmax; [discriminate |].
  apply Z.ltb_ge in Hmax.
  destruct ((default 5 limit <? int_min) || (int_max <? default 5 limit)) eqn:Hint;
    [discriminate |].
  apply orb_false_iff in Hint as [_ Hint]. apply Z.ltb_ge in Hint.
  intros _. split; [done |]. split; [by exists t |].
  split; [lia |]. split; [done |]. split; [lia | done].
Qed.

(** ** The clock and repeated updates *)

Section ClockReadings.

Implicit Types (w : World) (id : string).

Lemma insert_ticks w (vectors : list Embedding) (ids : list string)
    (payloads : list JsObject) :
  ticks (SupabaseDB.insert vectors ids payloads w).2 = (ticks w + length vectors)%nat.
Proof.
  destruct (table (db w)) as [t|] eqn:Ht.
  - rewrite (insert_runs w vectors ids payloads t Ht).
    by destruct (insert_rows _ t).
  - unfold SupabaseDB.insert. run_method. rewrite insert_data_rows_0. cbn [db].
    unfold pg_insert. by rewrite Ht.
Qed.

Lemma update_ticks w id (vector : Embedding) (p : JsObject) :
  ticks (SupabaseDB.update id vector p w).2 = S (ticks w).
Proof.
  unfold SupabaseDB.update. run_method. cbn [db clock ticks console].
  destruct (pg_update _ _ _ (db w)) as [r d]. cbn [db clock ticks console fst snd].
  by destruct (error r).
Qed.

Lemma delete_request_ticks (ps : list Predicate) (label : string) w :
  ticks (logged label (r ← await (pg_delete ps); throw_if_error r) w).2 = ticks w.
Proof.
  run_method. destruct (pg_delete ps (db w)) as [r d]. cbn.
  by destruct (error r).
Qed.

Lemma search_ticks (distance : Embedding -> Embedding -> Q) (q : Embedding)
    (limit : option Z) (filters : option SearchFilters) w :
  ticks (SupabaseDB.search distance q limit filters w).2 = ticks w.
Proof.
  unfold SupabaseDB.search, SupabaseDB.search_response. run_method.
  destruct (pg_rpc_match_vectors distance _ (db w)) as [r d]. cbn.
  destruct (error r); cbn; [done |]. by destruct (data r).
Qed.

Lemma get_ticks id w : ticks (SupabaseDB.get id w).2 = ticks w.
Proof.
  unfold SupabaseDB.get, SupabaseDB.get_response. run_method.
  destruct (pg_select false [IdEq id] None (db w)) as [r d]. cbn.
  destruct (error (single r)); cbn; [done |]. by destruct (data (single r)).
Qed.

Lemma list_ticks (filters : option SearchFilters) (limit : option Z) w :
  ticks (SupabaseDB.list filters limit w).2 = ticks w.
Proof.
  unfold SupabaseDB.list, SupabaseDB.list_response. run_method.
  destruct (pg_select true _ _ (db w)) as [r d]. cbn.
  destruct (error r); cbn; [done |]. by destruct (data r).
Qed.

Lemma initialize_ticks (self : SupabaseDB.SupabaseDB) w :
  ticks (SupabaseDB.initialize self w).2 = ticks w.
Proof.
  destruct (table (db w)) as [t|] eqn:Ht.
  - by rewrite (initialize_with_table self w t Ht).
  - by rewrite (initialize_without_table self w Ht).
Qed.

End ClockReadings.

(** X20. Only [insert] and [update] read the clock, and they read it before
    the request is sent: [insert] reads it once for each vector of the batch
    and [update] once, whether they then resolve or reject; [search], [get],
    [delete], [deleteCol], [list] and [initialize] never read it. *)
Theorem only_insert_and_update_read_the_clock (distance : Embedding -> Embedding -> Q)
    (self : SupabaseDB.SupabaseDB) (w : World) (vectors : list Embedding)
    (ids : list string) (payloads : list JsObject) (id : string) (vector : Embedding)
    (p : JsObject) (limit : option Z) (filters : option SearchFilters) :
  ticks (SupabaseDB.insert vectors ids payloads w).2 = (ticks w + length vectors)%nat
  /\ ticks (SupabaseDB.update id vector p w).2 = S (ticks w)
  /\ ticks (SupabaseDB.search distance vector limit filters w).2 = ticks w
  /\ ticks (SupabaseDB.get id w).2 = ticks w
  /\ ticks (SupabaseDB.delete id w).2 = ticks w
  /\ ticks (SupabaseDB.deleteCol w).2 = ticks w
  /\ ticks (SupabaseDB.list filters limit w).2 = ticks w
  /\ ticks (SupabaseDB.initialize self w).2 = ticks w.
Proof.
  split; [apply insert_ticks |]. split; [apply update_ticks |].
  split; [apply search_ticks |]. split; [apply get_ticks |].
  split; [apply delete_request_ticks |]. split; [apply delete_request_ticks |].
  split; [apply list_ticks | apply initialize_ticks].
Qed.

(** X21. The last [update] wins: after two updates of a record the table
    holds the vector and the payload of the second, stamped with the reading
    of the clock the second made, and nothing of the first. *)
Theorem last_update_wins (w : World) (t : gmap string Stored) (id : string)
    (old : Stored) (v1 v2 : Embedding) (p1 p2 : JsObject) :
  table (db w) = Some t -> t !! id = Some old ->
  length v1 = dimension -> length v2 = dimension ->
  exists w1 w2 : World,
    SupabaseDB.update id v1 p1 w = (Resolved tt, w1)
    /\ SupabaseDB.update id v2 p2 w1 = (Resolved tt, w2)
    /\ table (db w2)
       = Some (<[id := {| embedding := v2;
                          metadata :=
                            <["updated_at" := JStr (toISOString (clock w (S (ticks w))))]>
                              p2 |}]> t).
Proof.
  intros Ht Hid H1 H2. eexists _, _.
  split; [apply (update_present w t id old v1 p1 Ht Hid H1) |].
  split.
  - eapply update_present; [reflexivity | apply lookup_insert_eq | exact H2].
  - cbn [db with_table table clock ticks]. by rewrite insert_insert_eq.
Qed.

(** ** The further properties at work on the sample worlds *)

Lemma well_dimensioned_empty_world : well_dimensioned (db Sample.empty_world).
Proof. intros t id r [= <-] Hid. by rewrite lookup_empty in Hid. Qed.

Lemma well_dimensioned_two_records_world :
  well_dimensioned (db Sample.two_records_world).
Proof.
  unfold Sample.two_records_world, Sample.after.
  apply insert_keeps_dimension, insert_keeps_dimension, well_dimensioned_empty_world.
Qed.

Lemma insert_stores_the_batch_witness :
  let vectors := [Sample.ones; Sample.halves] in
  let ids := ["a"; "b"; "spare"] in
  let payloads : list JsObject := [ {[ "t" := JStr "x" ]} ] in
  let w' := Sample.after (SupabaseDB.insert vectors ids payloads) Sample.empty_world in
  SupabaseDB.insert vectors ids payloads Sample.empty_world = (Resolved tt, w')
  /\ exists t' : gmap string Stored,
       table (db w') = Some t'
       /\ ticks w' = 2%nat
       /\ t' !! "a"
          = Some {| embedding := Sample.ones;
                    metadata := {[ "created_at" := JStr "2023-11-14T22:13:20.000Z";
                                   "t" := JStr "x" ]} |}
       /\ t' !! "b"
          = Some {| embedding := Sample.halves;
                    metadata := {[ "created_at" := JStr "2023-11-14T22:13:20.001Z" ]} |}
       /\ t' !! "spare" = None.
Proof.
  intros vectors ids payloads w'.
  assert (Hinsert : SupabaseDB.insert vectors ids payloads Sample.empty_world
                    = (Resolved tt, w')) by (vm_compute; reflexivity).
  split; [exact Hinsert |].
  destruct (insert_stores_the_batch Sample.empty_world w' vectors ids payloads Hinsert)
    as (t & t' & Ht & Hw' & Hstored & Hother).
  exists t'. split; [rewrite Hw'; reflexivity |]. split; [rewrite Hw'; reflexivity |].
  split; [| split].
  - destruct (Hstored 0%nat Sample.ones eq_refl) as (id & Hid & Ha).
    injection Hid as <-. rewrite Ha. vm_compute. reflexivity.
  - destruct (Hstored 1%nat Sample.halves eq_refl) as (id & Hid & Hb).
    injection Hid as <-. rewrite Hb. vm_compute. reflexivity.
  - rewrite Hother; [| by apply (bool_decide_unpack _)].
    injection Ht as <-. apply lookup_empty.
Defined.

Lemma insert_resolves_only_for_a_valid_batch_witness :
  let w := Sample.empty_world in
  let w' := Sample.after (SupabaseDB.insert [Sample.ones] ["a"] [∅]) w in
  SupabaseDB.insert [Sample.ones] ["a"] [∅] w = (Resolved tt, w')
  /\ exists t : gmap string Stored,
       table (db w) = Some t /\ (length [Sample.ones] <= length ["a"])%nat.
Proof.
  intros w w'.
  assert (Hinsert : SupabaseDB.insert [Sample.ones] ["a"] [∅] w = (Resolved tt, w'))
    by (vm_compute; reflexivity).
  split; [exact Hinsert |].
  destruct (insert_resolves_only_for_a_valid_batch w w' _ _ _ Hinsert)
    as (t & Ht & Hlen & _).
  exists t. split; [exact Ht | exact Hlen].
Defined.

Lemma rejected_writes_write_nothing_witness :
  let w := Sample.two_records_world in
  let e := BackendFailure UniqueViolation in
  let w' := Sample.after (SupabaseDB.insert [Sample.ones] ["a"] [∅]) w in
  SupabaseDB.insert [Sample.ones] ["a"] [∅] w = (Rejected e, w')
  /\ db w' = db w.
Proof.
  intros w e w'.
  assert (Hinsert : SupabaseDB.insert [Sample.ones] ["a"] [∅] w = (Rejected e, w'))
    by (vm_compute; reflexivity).
  split; [exact Hinsert |].
  destruct (rejected_writes_write_nothing w w' e) as (Hwrite & _).
  exact (Hwrite _ _ _ Hinsert).
Defined.

Lemma delete_removes_exactly_the_record_witness :
  let w := Sample.two_records_world in
  table (db w) = Some (Sample.table_of w)
  /\ exists (w1 : World) (t1 : gmap string Stored),
       SupabaseDB.delete "a" w = (Resolved tt, w1)
       /\ table (db w1) = Some t1
       /\ t1 !! "a" = None
       /\ t1 !! "b" = Sample.table_of w !! "b".
Proof.
  intros w.
  assert (Ht : table (db w) = Some (Sample.table_of w)) by (vm_compute; reflexivity).
  split; [exact Ht |].
  destruct (delete_removes_exactly_the_record w _ "a" Ht)
    as (w1 & t1 & Hdel & Ht1 & Hgone & Hkept & _).
  exists w1, t1. split; [exact Hdel |]. split; [exact Ht1 |]. split; [exact Hgone |].
  apply Hkept. discriminate.
Defined.

Lemma insert_then_delete_restores_witness :
  let w := Sample.two_records_world in
  table (db w) = Some (Sample.table_of w)
  /\ Sample.table_of w !! "c" = None
  /\ length Sample.ones = dimension
  /\ exists w1 w2 : World,
       SupabaseDB.insert [Sample.ones] ["c"] [∅] w = (Resolved tt, w1)
       /\ SupabaseDB.delete "c" w1 = (Resolved tt, w2)
       /\ db w2 = db w.
Proof.
  intros w.
  assert (Ht : table (db w) = Some (Sample.table_of w)) by (vm_compute; reflexivity).
  assert (Hc : Sample.table_of w !! "c" = None) by (vm_compute; reflexivity).
  assert (Hdim : length Sample.ones = dimension) by apply length_replicate.
  split; [exact Ht |]. split; [exact Hc |]. split; [exact Hdim |].
  exact (insert_then_delete_restores w _ Sample.ones "c" ∅ Ht Hc Hdim).
Defined.

Lemma list_cuts_at_the_limit_and_counts_all_witness :
  let w := Sample.three_records_world in
  let f : SearchFilters := {[ "t" := JStr "x" ]} in
  let results := (match (SupabaseDB.list (Some f) (Some 1) w).1 with
                  | Resolved (results, _) => results
                  | Rejected _ => []
                  end) in
  plain_keys f
  /\ SupabaseDB.list (Some f) (Some 1) w = (Resolved (results, 2%nat), w)
  /\ exists t : gmap string Stored,
       table (db w) = Some t
       /\ 2%nat = size (filter (fun kv : string * Stored => text_matches f kv.2) t)
       /\ length results = Nat.min (Z.to_nat 1) 2.
Proof.
  intros w f results.
  assert (Hkeys : plain_keys f).
  { intros k v Hk. apply lookup_singleton_Some in Hk as [<- _]. reflexivity. }
  assert (Hlist : SupabaseDB.list (Some f) (Some 1) w = (Resolved (results, 2%nat), w))
    by (vm_compute; reflexivity).
  split; [exact Hkeys |]. split; [exact Hlist |].
  destruct (list_cuts_at_the_limit_and_counts_all w w (Some f) (Some 1) results 2%nat
              Hkeys Hlist) as (t & Ht & Htotal & _ & Hlen & _).
  exists t. split; [exact Ht |]. split; [exact Htotal | exact Hlen].
Defined.

Lemma list_returns_every_match_witness :
  let w := Sample.two_records_world in
  let f : SearchFilters := {[ "t" := JStr "x" ]} in
  let x : JsObject := <["created_at" := JStr "2023-11-14T22:13:20.000Z"]>
                        {[ "t" := JStr "x" ]} in
  let stored := {| embedding := Sample.ones; metadata := x |} in
  let a := {| SupabaseDB.vector_id := "a"; SupabaseDB.payload := x;
              SupabaseDB.score := None |} in
  plain_keys f
  /\ table (db w) = Some (Sample.table_of w)
  /\ SupabaseDB.list (Some f) None w = (Resolved ([a], 1%nat), w)
  /\ (1 <= Z.to_nat 100)%nat
  /\ Sample.table_of w !! "a" = Some stored
  /\ text_matches f stored
  /\ a ∈ [a].
Proof.
  intros w f x stored a.
  assert (Hkeys : plain_keys f).
  { intros k v Hk. apply lookup_singleton_Some in Hk as [<- _]. reflexivity. }
  assert (Ht : table (db w) = Some (Sample.table_of w)) by (vm_compute; reflexivity).
  assert (Hlist : SupabaseDB.list (Some f) None w = (Resolved ([a], 1%nat), w))
    by (vm_compute; reflexivity).
  assert (Hle : (1 <= Z.to_nat 100)%nat) by lia.
  assert (Ha : Sample.table_of w !! "a" = Some stored) by (vm_compute; reflexivity).
  assert (Hmatch : text_matches f stored).
  { intros k v Hk. apply lookup_singleton_Some in Hk as [<- <-]. reflexivity. }
  split; [exact Hkeys |]. split; [exact Ht |]. split; [exact Hlist |].
  split; [exact Hle |]. split; [exact Ha |]. split; [exact Hmatch |].
  apply (list_returns_every_match w w _ (Some f) None [a] 1%nat Hkeys Ht Hlist Hle a).
  exists "a", stored. split; [exact Ha |]. split; [exact Hmatch | reflexivity].
Defined.

Lemma list_without_filter_counts_the_table_witness :
  let w := Sample.two_records_world in
  let results := (match (SupabaseDB.list None None w).1 with
                  | Resolved (results, _) => results
                  | Rejected _ => []
                  end) in
  table (db w) = Some (Sample.table_of w)
  /\ SupabaseDB.list None None w = (Resolved (results, 2%nat), w)
  /\ 2%nat = size (Sample.table_of w).
Proof.
  intros w results.
  assert (Ht : table (db w) = Some (Sample.table_of w)) by (vm_compute; reflexivity).
  assert (Hlist : SupabaseDB.list None None w = (Resolved (results, 2%nat), w))
    by (vm_compute; reflexivity).
  split; [exact Ht |]. split; [exact Hlist |].
  destruct (list_without_filter_counts_the_table w w (Sample.table_of w) None
              results 2%nat) as [_ Hsize].
  exact (Hsize Ht Hlist).
Defined.

Lemma search_results_are_stored_records_witness :
  let w := Sample.two_records_world in
  let a := {| SupabaseDB.vector_id := "a";
              SupabaseDB.payload := <["created_at" := JStr "2023-11-14T22:13:20.000Z"]>
                                      {[ "t" := JStr "x" ]};
              SupabaseDB.score := Some (1 - 0)%Q |} in
  SupabaseDB.search Sample.manhattan Sample.ones (Some 1) (Some {[ "t" := JStr "x" ]}) w
  = (Resolved [a], w)
  /\ exists (t : gmap string Stored) (stored : Stored),
       table (db w) = Some t
       /\ t !! "a" = Some stored
       /\ SupabaseDB.payload a = metadata stored
       /\ exists x : Json, metadata stored !! "t" = Some x
                           /\ jsonb_contains x (JStr "x") = true.
Proof.
  intros w a.
  assert (Hsearch :
    SupabaseDB.search Sample.manhattan Sample.ones (Some 1) (Some {[ "t" := JStr "x" ]}) w
    = (Resolved [a], w)) by (vm_compute; reflexivity).
  split; [exact Hsearch |].
  destruct (search_results_are_stored_records Sample.manhattan w w _ _ _ _ Hsearch)
    as (t & Ht & _ & Hstored).
  destruct (Hstored a (list_elem_of_here _ _)) as (stored & Hid & Hpayload & _ & _ & Hfilter).
  exists t, stored. split; [exact Ht |]. split; [exact Hid |]. split; [exact Hpayload |].
  exact (Hfilter "t" (JStr "x") eq_refl).
Defined.

Lemma search_returns_every_match_witness :
  let w := Sample.two_records_world in
  let y : JsObject := <["created_at" := JStr "2023-11-14T22:13:20.001Z"]>
                        {[ "t" := JStr "y" ]} in
  let stored := {| embedding := Sample.halves; metadata := y |} in
  let results := (match (SupabaseDB.search Sample.manhattan Sample.ones None None w).1 with
                  | Resolved results => results
                  | Rejected _ => []
                  end) in
  table (db w) = Some (Sample.table_of w)
  /\ SupabaseDB.search Sample.manhattan Sample.ones None None w = (Resolved results, w)
  /\ Z.of_nat (size (Sample.table_of w)) <= 5
  /\ Sample.table_of w !! "b" = Some stored
  /\ where_clause ∅ stored = true
  /\ {| SupabaseDB.vector_id := "b"; SupabaseDB.payload := y;
        SupabaseDB.score := Some (1 - Sample.manhattan Sample.halves Sample.ones)%Q |}
     ∈ results.
Proof.
  intros w y stored results.
  assert (Ht : table (db w) = Some (Sample.table_of w)) by (vm_compute; reflexivity).
  assert (Hsearch : SupabaseDB.search Sample.manhattan Sample.ones None None w
                    = (Resolved results, w)) by (vm_compute; reflexivity).
  assert (Hsize : Z.of_nat (size (Sample.table_of w)) <= 5)
    by (vm_compute; discriminate).
  assert (Hb : Sample.table_of w !! "b" = Some stored) by (vm_compute; reflexivity).
  assert (Hwhere : where_clause ∅ stored = true) by apply where_clause_empty.
  split; [exact Ht |]. split; [exact Hsearch |]. split; [exact Hsize |].
  split; [exact Hb |]. split; [exact Hwhere |].
  exact (search_returns_every_match Sample.manhattan w w _ Sample.ones None None results
           "b" stored Ht Hsearch Hsize Hb Hwhere).
Defined.

Lemma search_empty_filter_is_no_filter_witness :
  let w := Sample.two_records_world in
  let results := (match (SupabaseDB.search Sample.manhattan Sample.ones (Some 5) None w).1 with
                  | Resolved results => results
                  | Rejected _ => []
                  end) in
  SupabaseDB.search Sample.manhattan Sample.ones (Some 5) None w = (Resolved results, w)
  /\ SupabaseDB.search Sample.manhattan Sample.ones (Some 5) (Some ∅) w
     = (Resolved results, w)
  /\ SupabaseDB.vector_id <$> results = ["a"; "b"]
  /\ exists t : gmap string Stored,
       table (db w) = Some t
       /\ length results = Nat.min (Z.to_nat 5) (size t).
Proof.
  intros w results.
  assert (Hsearch : SupabaseDB.search Sample.manhattan Sample.ones (Some 5) None w
                    = (Resolved results, w)) by (vm_compute; reflexivity).
  assert (Hids : SupabaseDB.vector_id <$> results = ["a"; "b"])
    by (vm_compute; reflexivity).
  destruct (search_empty_filter_is_no_filter Sample.manhattan w Sample.ones (Some 5))
    as [Hsame Hall].
  split; [exact Hsearch |]. split; [rewrite Hsame; exact Hsearch |].
  split; [exact Hids |].
  destruct (Hall results w Hsearch) as (t & Ht & Hlen & _).
  exists t. split; [exact Ht | exact Hlen].
Defined.

Lemma initialize_keeps_the_other_records_witness :
  let w := table_only_world in
  let self := (SupabaseDB.constructor Sample.config w).1.1 in
  table (db w) = Some (Sample.table_of w)
  /\ is_Some (Sample.table_of w !! "test_vector")
  /\ exists (w1 : World) (t1 : gmap string Stored),
       SupabaseDB.initialize self w = (Resolved tt, w1)
       /\ table (db w1) = Some t1
       /\ t1 !! "test_vector" = None
       /\ t1 !! "a" = Sample.table_of w !! "a".
Proof.
  intros w self.
  assert (Ht : table (db w) = Some (Sample.table_of w)) by reflexivity.
  split; [exact Ht |]. split; [by eexists |].
  destruct (initialize_keeps_the_other_records self w _ Ht)
    as (w1 & t1 & Hinit & Ht1 & Hgone & Hkept & _).
  exists w1, t1. split; [exact Hinit |]. split; [exact Ht1 |]. split; [exact Hgone |].
  apply Hkept. discriminate.
Defined.

Lemma initialize_does_not_probe_match_vectors_witness :
  let w := table_only_world in
  let self := (SupabaseDB.constructor Sample.config w).1.1 in
  table (db w) = Some (Sample.table_of w)
  /\ match_vectors_installed (db w) = false
  /\ exists w1 w2 : World,
       SupabaseDB.initialize self w = (Resolved tt, w1)
       /\ SupabaseDB.search Sample.manhattan Sample.ones None None w1
          = (Rejected (BackendFailure UndefinedFunction), w2).
Proof.
  intros w self.
  split; [reflexivity |]. split; [reflexivity |].
  exact (initialize_does_not_probe_match_vectors Sample.manhattan self w _
           Sample.ones None None eq_refl eq_refl).
Defined.

Lemma constructor_names_are_never_empty_witness :
  let config :=
    {| SupabaseDB.supabaseUrl := "https://example.supabase.co";
       SupabaseDB.supabaseKey := "key";
       SupabaseDB.config_tableName := "memories";
       SupabaseDB.config_embeddingColumnName := Some "";
       SupabaseDB.config_metadataColumnName := Some "meta" |} in
  let self := (SupabaseDB.constructor config Sample.bare_world).1.1 in
  "meta" <> ""
  /\ SupabaseDB.config_metadataColumnName config = Some "meta"
  /\ SupabaseDB.metadataColumnName self = "meta"
  /\ SupabaseDB.embeddingColumnName self = "embedding".
Proof.
  intros config self.
  destruct (constructor_names_are_never_empty config Sample.bare_world)
    as (_ & _ & _ & Hkept & Hdefault & _).
  assert (Hne : "meta" <> "") by discriminate.
  split; [exact Hne |]. split; [reflexivity |].
  split; [exact (proj2 (Hkept "meta" Hne) eq_refl) |].
  exact (Hdefault (or_introl eq_refl)).
Defined.

Lemma deleteCol_removes_the_nonempty_ids_witness :
  let w := Sample.two_records_world in
  table (db w) = Some (Sample.table_of w)
  /\ exists (w1 : World) (t1 : gmap string Stored),
       SupabaseDB.deleteCol w = (Resolved tt, w1)
       /\ table (db w1) = Some t1
       /\ t1 !! "a" = None /\ t1 !! "b" = None.
Proof.
  intros w.
  assert (Ht : table (db w) = Some (Sample.table_of w)) by (vm_compute; reflexivity).
  split; [exact Ht |].
  destruct (deleteCol_removes_the_nonempty_ids w _ Ht)
    as (w1 & t1 & Hdel & Ht1 & Hgone & _).
  exists w1, t1. split; [exact Hdel |]. split; [exact Ht1 |].
  split; apply Hgone; discriminate.
Defined.

Lemma get_resolves_with_the_stored_record_witness :
  let w := Sample.two_records_world in
  let a := {| SupabaseDB.vector_id := "a";
              SupabaseDB.payload := <["created_at" := JStr "2023-11-14T22:13:20.000Z"]>
                                      {[ "t" := JStr "x" ]};
              SupabaseDB.score := None |} in
  SupabaseDB.get "a" w = (Resolved (Some a), w)
  /\ exists (t : gmap string Stored) (stored : Stored),
       table (db w) = Some t /\ t !! "a" = Some stored
       /\ Some a = Some (stored_result "a" stored).
Proof.
  intros w a.
  assert (Hget : SupabaseDB.get "a" w = (Resolved (Some a), w))
    by (vm_compute; reflexivity).
  split; [exact Hget |].
  destruct (get_resolves_with_the_stored_record w w "a" (Some a) Hget)
    as (t & stored & Ht & Hid & Ho & _).
  exists t, stored. split; [exact Ht |]. split; [exact Hid | exact Ho].
Defined.

Lemma methods_keep_the_dimension_witness :
  well_dimensioned (db Sample.empty_world)
  /\ well_dimensioned
       (db (SupabaseDB.insert [Sample.ones; Sample.halves] ["a"; "b"] []
              Sample.empty_world).2)
  /\ well_dimensioned (db (SupabaseDB.update "a" [] ∅ Sample.empty_world).2).
Proof.
  split; [exact well_dimensioned_empty_world |].
  destruct (methods_keep_the_dimension
              (SupabaseDB.constructor Sample.config Sample.empty_world).1.1
              Sample.empty_world [Sample.ones; Sample.halves] ["a"; "b"] [] "a" [] ∅
              well_dimensioned_empty_world) as (Hinsert & Hupdate & _).
  split; [exact Hinsert | exact Hupdate].
Defined.

Lemma search_resolves_only_for_a_valid_request_witness :
  let w := Sample.two_records_world in
  let results := (match (SupabaseDB.search Sample.manhattan Sample.halves None
                           (Some {[ "t" := JStr "y" ]}) w).1 with
                  | Resolved results => results
                  | Rejected _ => []
                  end) in
  SupabaseDB.search Sample.manhattan Sample.halves None (Some {[ "t" := JStr "y" ]}) w
  = (Resolved results, w)
  /\ length results = 1%nat
  /\ match_vectors_installed (db w) = true
  /\ (0 < length Sample.halves)%nat
  /\ 0 <= 5 <= int_max.
Proof.
  intros w results.
  assert (Hsearch :
    SupabaseDB.search Sample.manhattan Sample.halves None (Some {[ "t" := JStr "y" ]}) w
    = (Resolved results, w)) by (vm_compute; reflexivity).
  assert (Hlen : length results = 1%nat) by (vm_compute; reflexivity).
  split; [exact Hsearch |]. split; [exact Hlen |].
  destruct (search_resolves_only_for_a_valid_request Sample.manhattan w w Sample.halves
              None (Some {[ "t" := JStr "y" ]}) results Hsearch)
    as (Hf & _ & Hq & _ & Hlimit & _).
  split; [exact Hf |]. split; [exact Hq | exact Hlimit].
Defined.

Lemma last_update_wins_witness :
  let w := Sample.two_records_world in
  let old := {| embedding := Sample.ones;
                metadata := <["created_at" := JStr "2023-11-14T22:13:20.000Z"]>
                              {[ "t" := JStr "x" ]} |} in
  table (db w) = Some (Sample.table_of w)
  /\ Sample.table_of w !! "a" = Some old
  /\ length Sample.halves = dimension
  /\ length Sample.ones = dimension
  /\ exists w1 w2 : World,
       SupabaseDB.update "a" Sample.halves {[ "first" := JNull ]} w = (Resolved tt, w1)
       /\ SupabaseDB.update "a" Sample.ones {[ "second" := JNull ]} w1 = (Resolved tt, w2)
       /\ table (db w2)
          = Some (<["a" := {| embedding := Sample.ones;
                              metadata :=
                                <["updated_at" := JStr "2023-11-14T22:13:20.003Z"]>
                                  {[ "second" := JNull ]} |}]> (Sample.table_of w)).
Proof.
  intros w old.
  assert (Ht : table (db w) = Some (Sample.table_of w)) by (vm_compute; reflexivity).
  assert (Ha : Sample.table_of w !! "a" = Some old) by (vm_compute; reflexivity).
  assert (H1 : length Sample.halves = dimension) by apply length_replicate.
  assert (H2 : length Sample.ones = dimension) by apply length_replicate.
  split; [exact Ht |]. split; [exact Ha |]. split; [exact H1 |]. split; [exact H2 |].
  exact (last_update_wins w _ "a" old Sample.halves Sample.ones
           {[ "first" := JNull ]} {[ "second" := JNull ]} Ht Ha H1 H2).
Defined.
